(** * events-booking: the route, session and persistence layer of [index.js]

    A shallow embedding of the Express application.  The server is a
    sequential state machine: one request is served to completion
    before the next one is looked at.  Every route handler is a
    computation in a small state-and-exception monad [H] over the
    handler state (database tables, the request's session, the session
    store, the pending query rejections and the effect trace).

    What lies outside the sources is taken as a parameter:
    - the password hashing library, as the class [CredentialService];
    - PostgreSQL's conversion of text parameters to dates and integers,
      as the class [SqlInput];
    - whether a query is rejected (lost connection, violated
      constraint): every request comes with a list of booleans, one
      per query it issues, and [true] rejects that query;
    - the salt drawn by the hashing library and the identifier drawn
      for a new session, both supplied with the request's environment. *)

From stdpp Require Import gmap strings list sorting.
From Stdlib Require Import ZArith.

Local Open Scope string_scope.
Local Open Scope Z_scope.

(** ** Values *)

(** A field of a form-encoded body: [undefined] or a string. *)
Definition field := option string.

(** [f || d] on a field: [undefined] and the empty string are falsy. *)
Definition or_else (f : field) (d : string) : string :=
  match f with
  | Some s => if decide (s = EmptyString) then d else s
  | None => d
  end.

Record form := {
  f_username : field;
  f_password : field;
  f_role : field;
  f_title : field;
  f_date : field;
  f_location : field;
}.

Definition empty_form : form :=
  {| f_username := None; f_password := None; f_role := None;
     f_title := None; f_date := None; f_location := None |}.

(** ** Tables

    A column is an [option] exactly where a handler can bind NULL into
    it.  Rows are kept in insertion order. *)

Record user_row := {
  u_id : Z;
  u_username : option string;
  u_password : string;
  u_role : string;
}.

Record event_row := {
  e_id : Z;
  e_title : option string;
  e_date : option Z;
  e_location : option string;
  e_user_id : option Z;
}.

Record booking_row := {
  b_id : Z;
  b_user_id : Z;
  b_event_id : Z;
}.

Record database := {
  users : list user_row;
  events : list event_row;
  bookings : list booking_row;
  seq_users : Z;
  seq_events : Z;
  seq_bookings : Z;
}.

Definition empty_database : database :=
  {| users := []; events := []; bookings := [];
     seq_users := 1; seq_events := 1; seq_bookings := 1 |}.

#[global] Instance user_row_eq_dec : EqDecision user_row.
Proof. solve_decision. Defined.
#[global] Instance event_row_eq_dec : EqDecision event_row.
Proof. solve_decision. Defined.

(** ** External collaborators *)

(** bcrypt: [hash rounds salt plaintext] and [verify plaintext hash]. *)
Class CredentialService := {
  hash : Z -> string -> string -> string;
  verify : string -> string -> bool;
}.

(** The contract of the Credential Service. *)
Class CredentialLaws `{CredentialService} := {
  verify_hash : forall rounds salt p, verify p (hash rounds salt p) = true;
  hash_not_plain : forall rounds salt p, hash rounds salt p <> p;
}.

(** PostgreSQL's input conversions for the [date] and [integer] columns. *)
Class SqlInput := {
  date_in : string -> option Z;
  int4_in : string -> option Z;
}.

(** ** Queries *)

Inductive query :=
| SelectEvents
| SelectEventsOf (uid : Z)
| SelectUser (name : field)
| InsertUser (name : field) (hashed : string) (role : string)
| InsertEvent (title date location : field) (owner : option Z)
| InsertBooking (uid : Z) (eid : string)
| DeleteEvent (eid : string).

Inductive rows :=
| UserRows (l : list user_row)
| EventRows (l : list event_row)
| NoRows.

Definition user_rows (r : rows) : list user_row :=
  match r with UserRows l => l | _ => [] end.

Definition event_rows (r : rows) : list event_row :=
  match r with EventRows l => l | _ => [] end.

(** [ORDER BY date ASC]: NULL dates sort last. *)
Definition date_le (a b : option Z) : bool :=
  match a, b with
  | Some x, Some y => x <=? y
  | Some _, None => true
  | None, Some _ => false
  | None, None => true
  end.

Fixpoint insert_by_date (e : event_row) (l : list event_row) : list event_row :=
  match l with
  | [] => [e]
  | x :: l' =>
      if date_le (e_date x) (e_date e) then x :: insert_by_date e l'
      else e :: x :: l'
  end.

Fixpoint order_by_date (l : list event_row) : list event_row :=
  match l with
  | [] => []
  | e :: l' => insert_by_date e (order_by_date l')
  end.

(** [WHERE user_id = $1]: a NULL owner never compares equal. *)
Definition owned_by (uid : Z) (e : event_row) : bool :=
  match e_user_id e with
  | Some o => o =? uid
  | None => false
  end.

(** [WHERE username = $1]: neither a NULL column nor a NULL parameter matches. *)
Definition named (name : field) (u : user_row) : bool :=
  match name, u_username u with
  | Some n, Some m => bool_decide (n = m)
  | _, _ => false
  end.

Definition with_users (d : database) (l : list user_row) (s : Z) : database :=
  {| users := l; events := events d; bookings := bookings d;
     seq_users := s; seq_events := seq_events d; seq_bookings := seq_bookings d |}.

Definition with_events (d : database) (l : list event_row) (s : Z) : database :=
  {| users := users d; events := l; bookings := bookings d;
     seq_users := seq_users d; seq_events := s; seq_bookings := seq_bookings d |}.

Definition with_bookings (d : database) (l : list booking_row) (s : Z) : database :=
  {| users := users d; events := events d; bookings := l;
     seq_users := seq_users d; seq_events := seq_events d; seq_bookings := s |}.

(** Conversion of an optional text parameter: NULL stays NULL, a text
    that does not convert rejects the statement. *)
Definition convert (conv : string -> option Z) (f : field) : option (option Z) :=
  match f with
  | None => Some None
  | Some s => match conv s with Some z => Some (Some z) | None => None end
  end.

Section Persistence.
Context `{SqlInput}.

(** The statement run against the tables; [None] when a parameter
    does not convert to its column's type. *)
Definition run_query (q : query) (d : database) : option (rows * database) :=
  match q with
  | SelectEvents => Some (EventRows (order_by_date (events d)), d)
  | SelectEventsOf uid =>
      Some (EventRows (order_by_date (List.filter (owned_by uid) (events d))), d)
  | SelectUser name => Some (UserRows (List.filter (named name) (users d)), d)
  | InsertUser name hashed role =>
      let row := {| u_id := seq_users d; u_username := name;
                    u_password := hashed; u_role := role |} in
      Some (NoRows, with_users d (users d ++ [row]) (seq_users d + 1))
  | InsertEvent title date location owner =>
      match convert date_in date with
      | Some dt =>
          let row := {| e_id := seq_events d; e_title := title; e_date := dt;
                        e_location := location; e_user_id := owner |} in
          Some (NoRows, with_events d (events d ++ [row]) (seq_events d + 1))
      | None => None
      end
  | InsertBooking uid eid =>
      match int4_in eid with
      | Some n =>
          let row := {| b_id := seq_bookings d; b_user_id := uid; b_event_id := n |} in
          Some (NoRows, with_bookings d (bookings d ++ [row]) (seq_bookings d + 1))
      | None => None
      end
  | DeleteEvent eid =>
      match int4_in eid with
      | Some n =>
          Some (NoRows,
                with_events d (List.filter (fun e => negb (e_id e =? n)) (events d))
                            (seq_events d))
      | None => None
      end
  end.
End Persistence.

(** ** Responses, effects and the handler monad *)

Record session := { sess_user : option user_row }.

Definition new_session : session := {| sess_user := None |}.

(** The locals handed to a view. *)
Inductive locals :=
| NoLocals
| UserOnly (user : option user_row)
| UserEvents (user : option user_row) (evs : list event_row)
| UserEventId (user : option user_row) (eventId : string).

Inductive content :=
| Redirect (location : string)
| Text (message : string)
| View (name : string) (data : locals).

Record response := { status : Z; payload : content }.

(** No handler sets a status: [res.send] and [res.render] answer 200,
    [res.redirect] answers 302. *)
Definition sent (message : string) : response :=
  {| status := 200; payload := Text message |}.
Definition rendered (name : string) (data : locals) : response :=
  {| status := 200; payload := View name data |}.
Definition redirected (location : string) : response :=
  {| status := 302; payload := Redirect location |}.

Inductive error :=
| QueryRejected (q : query)
| BcryptArguments
| TypeError.

(** What a handler does to the outside, in the order it does it. *)
Inductive effect :=
| Issued (q : query)
| Rejected (q : query)
| Logged (e : error)
| Destroyed (sid : string)
| Replied (r : response).

Inductive result (A : Type) :=
| Ok (a : A)
| Throw (e : error).
Arguments Ok {A} a.
Arguments Throw {A} e.

Record hstate := {
  h_db : database;
  h_session : option session;
  h_sid : string;
  h_store : gmap string session;
  h_faults : list bool;
  h_salt : string;
  h_trace : list effect;
  h_reply : option response;
}.

Definition H (A : Type) : Type := hstate -> result A * hstate.

Definition ret {A} (a : A) : H A := fun st => (Ok a, st).

Definition bind {A B} (m : H A) (k : A -> H B) : H B :=
  fun st =>
    match m st with
    | (Ok a, st') => k a st'
    | (Throw e, st') => (Throw e, st')
    end.

Definition throw {A} (e : error) : H A := fun st => (Throw e, st).

(** [try { m } catch (err) { handler err }] *)
Definition try_catch {A} (m : H A) (handler : error -> H A) : H A :=
  fun st =>
    match m st with
    | (Ok a, st') => (Ok a, st')
    | (Throw e, st') => handler e st'
    end.

Notation "x <- m ;; k" := (bind m (fun x => k))
  (at level 100, m at next level, right associativity).
Notation "m ;;; k" := (bind m (fun _ => k))
  (at level 100, right associativity).

Definition emit (ev : effect) (st : hstate) : hstate :=
  {| h_db := h_db st; h_session := h_session st; h_sid := h_sid st;
     h_store := h_store st; h_faults := h_faults st; h_salt := h_salt st;
     h_trace := h_trace st ++ [ev]; h_reply := h_reply st |}.

Definition set_db (d : database) (st : hstate) : hstate :=
  {| h_db := d; h_session := h_session st; h_sid := h_sid st;
     h_store := h_store st; h_faults := h_faults st; h_salt := h_salt st;
     h_trace := h_trace st; h_reply := h_reply st |}.

Definition set_faults (fs : list bool) (st : hstate) : hstate :=
  {| h_db := h_db st; h_session := h_session st; h_sid := h_sid st;
     h_store := h_store st; h_faults := fs; h_salt := h_salt st;
     h_trace := h_trace st; h_reply := h_reply st |}.

Definition set_session (s : option session) (st : hstate) : hstate :=
  {| h_db := h_db st; h_session := s; h_sid := h_sid st;
     h_store := h_store st; h_faults := h_faults st; h_salt := h_salt st;
     h_trace := h_trace st; h_reply := h_reply st |}.

Definition set_store (m : gmap string session) (st : hstate) : hstate :=
  {| h_db := h_db st; h_session := h_session st; h_sid := h_sid st;
     h_store := m; h_faults := h_faults st; h_salt := h_salt st;
     h_trace := h_trace st; h_reply := h_reply st |}.

Definition set_reply (r : response) (st : hstate) : hstate :=
  {| h_db := h_db st; h_session := h_session st; h_sid := h_sid st;
     h_store := h_store st; h_faults := h_faults st; h_salt := h_salt st;
     h_trace := h_trace st; h_reply := Some r |}.

(** The state after the response [r] has been sent. *)
Definition finish (r : response) (st : hstate) : hstate :=
  set_reply r (emit (Replied r) st).

Definition reply (r : response) : H unit :=
  fun st => (Ok tt, finish r st).

Definition res_send (message : string) : H unit := reply (sent message).
Definition res_render (name : string) (data : locals) : H unit :=
  reply (rendered name data).
Definition res_redirect (location : string) : H unit :=
  reply (redirected location).

Definition console_error (e : error) : H unit :=
  fun st => (Ok tt, emit (Logged e) st).

(** The user the request's session carries, if any. *)
Definition current_user (st : hstate) : option user_row :=
  match h_session st with
  | Some s => sess_user s
  | None => None
  end.

(** [req.session.user] *)
Definition session_user : H (option user_row) :=
  fun st => (Ok (current_user st), st).

(** [req.session.user = user] *)
Definition set_session_user (user : user_row) : H unit :=
  fun st => (Ok tt, set_session (Some {| sess_user := Some user |}) st).

(** [req.session.destroy(callback)]: the request loses its session,
    the store forgets the identifier, and only then the callback runs. *)
Definition session_destroy (callback : H unit) : H unit :=
  fun st =>
    callback
      (emit (Destroyed (h_sid st))
         (set_store (delete (h_sid st) (h_store st)) (set_session None st))).

(** ** The application *)

Inductive route :=
| GetHome
| GetSignup
| PostSignup
| GetLogin
| PostLogin
| GetLogout
| GetCreateEvent
| PostCreateEvent
| PostBook (id : string)
| GetAdmin
| PostAdminAdd
| PostAdminDelete (id : string).

#[global] Instance route_eq_dec : EqDecision route.
Proof. solve_decision. Defined.

Record request := {
  cookie : option string;
  target : route;
  body : form;
}.

Definition taken_message : string :=
  "⚠️ Username already taken. <a href='/signup'>Try another</a>".
Definition failure_message : string := "Error occurred. Please try again.".
Definition invalid_message : string :=
  "Invalid credentials. <a href='/login'>Try again</a>".
Definition denied_message : string := "Access denied".

Section Application.
Context `{CredentialService} `{SqlInput}.

(** [await db.query(text, params)]: the statement is issued, then it
    either rejects (as the environment decides, or because a parameter
    does not convert) or resolves with its rows.  A rejected statement
    leaves the rows of every table as they were; whether the database
    has by then drawn an id from a sequence is not modelled, and no
    statement below speaks of the sequences after a rejection. *)
Definition db_query (q : query) : H rows :=
  fun st =>
    let st1 := emit (Issued q) (set_faults (tail (h_faults st)) st) in
    match h_faults st with
    | true :: _ => (Throw (QueryRejected q), emit (Rejected q) st1)
    | _ =>
        match run_query q (h_db st) with
        | Some (r, d) => (Ok r, set_db d st1)
        | None => (Throw (QueryRejected q), emit (Rejected q) st1)
        end
    end.

(** [await bcrypt.hash(data, rounds)]: rejects when [data] is undefined. *)
Definition bcrypt_hash (data : field) (rounds : Z) : H string :=
  fun st =>
    match data with
    | Some p => (Ok (hash rounds (h_salt st) p), st)
    | None => (Throw BcryptArguments, st)
    end.

(** [await bcrypt.compare(data, encrypted)]: rejects when [data] is undefined. *)
Definition bcrypt_compare (data : field) (encrypted : string) : H bool :=
  match data with
  | Some p => ret (verify p encrypted)
  | None => throw BcryptArguments
  end.

(** [requireLogin(req, res, next)] *)
Definition requireLogin (next : H unit) : H unit :=
  user <- session_user ;;
  match user with
  | None => res_redirect "/login"
  | Some _ => next
  end.

Definition is_admin (user : user_row) : bool :=
  bool_decide (u_role user = "admin").

(** [app.get("/")] *)
Definition get_home : H unit :=
  user <- session_user ;;
  evs <- match user with
         | Some u =>
             if is_admin u then
               result <- db_query SelectEvents ;;
               ret (event_rows result)
             else
               result <- db_query (SelectEventsOf (u_id u)) ;;
               ret (event_rows result)
         | None => ret []
         end ;;
  res_render "index" (UserEvents user evs).

(** [app.get("/signup")] *)
Definition get_signup : H unit := res_render "signup" NoLocals.

(** [app.post("/signup")] *)
Definition post_signup (b : form) : H unit :=
  try_catch
    (existing <- db_query (SelectUser (f_username b)) ;;
     if bool_decide (0 < length (user_rows existing))%nat then
       res_send taken_message
     else
       hashed <- bcrypt_hash (f_password b) 10 ;;
       db_query (InsertUser (f_username b) hashed (or_else (f_role b) "user")) ;;;
       res_redirect "/login")
    (fun err =>
       console_error err ;;;
       res_send failure_message).

(** [app.get("/login")] *)
Definition get_login : H unit := res_render "login" NoLocals.

(** [app.post("/login")]; the inner computation tells whether the
    handler has returned from inside the conditional. *)
Definition post_login (b : form) : H unit :=
  result <- db_query (SelectUser (f_username b)) ;;
  returned <- match user_rows result with
              | user :: _ =>
                  matched <- bcrypt_compare (f_password b) (u_password user) ;;
                  if (matched : bool) then
                    set_session_user user ;;;
                    res_redirect "/" ;;;
                    ret true
                  else ret false
              | [] => ret false
              end ;;
  if (returned : bool) then ret tt else res_send invalid_message.

(** [app.get("/logout")] *)
Definition get_logout : H unit := session_destroy (res_redirect "/").

(** [req.session.user.id]: reading a property of [undefined] throws. *)
Definition session_user_id : H Z :=
  user <- session_user ;;
  match user with
  | Some u => ret (u_id u)
  | None => throw TypeError
  end.

(** [app.get("/create-event")] *)
Definition get_create_event : H unit :=
  requireLogin
    (user <- session_user ;;
     res_render "create-event" (UserOnly user)).

(** [app.post("/create-event")] *)
Definition post_create_event (b : form) : H unit :=
  requireLogin
    (userId <- session_user_id ;;
     db_query (InsertEvent (f_title b) (f_date b) (f_location b) (Some userId)) ;;;
     res_redirect "/").

(** [app.post("/book/:id")] *)
Definition post_book (eventId : string) : H unit :=
  requireLogin
    (userId <- session_user_id ;;
     db_query (InsertBooking userId eventId) ;;;
     user <- session_user ;;
     res_render "confirmation" (UserEventId user eventId)).

(** The inline check of the admin routes:
    [if (req.session.user.role !== "admin") return res.send("Access denied")]. *)
Definition admin_only (next : H unit) : H unit :=
  user <- session_user ;;
  match user with
  | Some u => if is_admin u then next else res_send denied_message
  | None => throw TypeError
  end.

(** [app.get("/admin")] *)
Definition get_admin : H unit :=
  requireLogin
    (admin_only
       (evs <- db_query SelectEvents ;;
        user <- session_user ;;
        res_render "admin" (UserEvents user (event_rows evs)))).

(** [app.post("/admin/add")] *)
Definition post_admin_add (b : form) : H unit :=
  requireLogin
    (admin_only
       (db_query (InsertEvent (f_title b) (f_date b) (f_location b) None) ;;;
        res_redirect "/admin")).

(** [app.post("/admin/delete/:id")] *)
Definition post_admin_delete (id : string) : H unit :=
  requireLogin
    (admin_only
       (db_query (DeleteEvent id) ;;;
        res_redirect "/admin")).

Definition handler (rq : request) : H unit :=
  match target rq with
  | GetHome => get_home
  | GetSignup => get_signup
  | PostSignup => post_signup (body rq)
  | GetLogin => get_login
  | PostLogin => post_login (body rq)
  | GetLogout => get_logout
  | GetCreateEvent => get_create_event
  | PostCreateEvent => post_create_event (body rq)
  | PostBook id => post_book id
  | GetAdmin => get_admin
  | PostAdminAdd => post_admin_add (body rq)
  | PostAdminDelete id => post_admin_delete id
  end.

(** ** The server *)

(** What the outside supplies with a request. *)
Record env := {
  env_faults : list bool;
  env_salt : string;
  env_sid : string;
}.

Record world := {
  w_db : database;
  w_store : gmap string session;
}.

Record outcome := {
  o_result : result unit;
  o_reply : option response;
  o_trace : list effect;
  o_sid : string;
}.

(** The session middleware on the way in: the cookie's session when
    the store knows it, a new empty one otherwise. *)
Definition load_session (store : gmap string session) (c : option string)
    (fresh : string) : string * session :=
  match c with
  | Some sid =>
      match store !! sid with
      | Some s => (sid, s)
      | None => (fresh, new_session)
      end
  | None => (fresh, new_session)
  end.

Definition enter (en : env) (rq : request) (w : world) : hstate :=
  let '(sid, s) := load_session (w_store w) (cookie rq) (env_sid en) in
  {| h_db := w_db w; h_session := Some s; h_sid := sid;
     h_store := w_store w; h_faults := env_faults en; h_salt := env_salt en;
     h_trace := []; h_reply := None |}.

(** The session middleware on the way out: when the response ends, a
    session the request still has is written back to the store.  What
    the framework does with an exception that escapes the handler is
    not part of the application. *)
Definition leave (st : hstate) : world :=
  {| w_db := h_db st;
     w_store :=
       match h_reply st, h_session st with
       | Some _, Some s => <[h_sid st := s]> (h_store st)
       | _, _ => h_store st
       end |}.

Definition serve (en : env) (rq : request) (w : world) : world * outcome :=
  let '(r, st) := handler rq (enter en rq w) in
  (leave st,
   {| o_result := r; o_reply := h_reply st; o_trace := h_trace st;
      o_sid := h_sid st |}).

Fixpoint run (reqs : list (env * request)) (w : world) : world :=
  match reqs with
  | [] => w
  | (en, rq) :: rest => run rest (fst (serve en rq w))
  end.

End Application.

Definition empty_world : world :=
  {| w_db := empty_database; w_store := ∅ |}.

(** ** Predicates of the statements *)

(** A quiet environment: no query is rejected. *)
Definition quiet (fs : list bool) : Prop := Forall (fun b => b = false) fs.

(** Ascending dates, NULL last. *)
Definition by_date (a b : event_row) : Prop :=
  date_le (e_date a) (e_date b) = true.

(** Usernames are unique when no name occurs in two rows. *)
Definition unique_usernames (l : list user_row) : Prop :=
  NoDup (omap u_username l).

Definition role_valid (u : user_row) : Prop :=
  u_role u = "user" \/ u_role u = "admin".

(** A role field that is absent, empty, "user" or "admin". *)
Definition plain_role (f : field) : Prop :=
  f = None \/ f = Some EmptyString \/ f = Some "user" \/ f = Some "admin".

(** A request that, if it is a signup, submits such a role. *)
Definition modest (rq : request) : Prop :=
  target rq = PostSignup -> plain_role (f_role (body rq)).

(** The state a resolved read-only query leaves behind. *)
Definition after_select (q : query) (st : hstate) : hstate :=
  set_db (h_db st) (emit (Issued q) (set_faults (tail (h_faults st)) st)).

(** The row a successful signup appends. *)
Definition signup_row `{CredentialService} (b : form) (pw : string)
    (st : hstate) : user_row :=
  {| u_id := seq_users (h_db st); u_username := f_username b;
     u_password := hash 10 (h_salt st) pw;
     u_role := or_else (f_role b) "user" |}.

(** The routes registered behind [requireLogin]. *)
Definition guarded (t : route) : bool :=
  match t with
  | GetCreateEvent | PostCreateEvent | PostBook _
  | GetAdmin | PostAdminAdd | PostAdminDelete _ => true
  | _ => false
  end.

(** The routes that start with the inline admin check. *)
Definition admin_route (t : route) : bool :=
  match t with
  | GetAdmin | PostAdminAdd | PostAdminDelete _ => true
  | _ => false
  end.

(** The event row an INSERT of the application appends. *)
Definition event_row_of (b : form) (dt : option Z) (owner : option Z)
    (d : database) : event_row :=
  {| e_id := seq_events d; e_title := f_title b; e_date := dt;
     e_location := f_location b; e_user_id := owner |}.

(** The ways serving one request can leave the tables, read off the
    statements the handlers issue. *)
Inductive db_effect `{CredentialService} `{SqlInput}
    (rq : request) (st : hstate) : database -> Prop :=
| db_unchanged :
    db_effect rq st (h_db st)
| db_signup pw :
    target rq = PostSignup ->
    db_effect rq st
      (with_users (h_db st)
         (users (h_db st) ++ [signup_row (body rq) pw st])
         (seq_users (h_db st) + 1))
| db_create u dt :
    target rq = PostCreateEvent ->
    current_user st = Some u ->
    convert date_in (f_date (body rq)) = Some dt ->
    db_effect rq st
      (with_events (h_db st)
         (events (h_db st) ++
            [event_row_of (body rq) dt (Some (u_id u)) (h_db st)])
         (seq_events (h_db st) + 1))
| db_admin_add u dt :
    target rq = PostAdminAdd ->
    current_user st = Some u -> u_role u = "admin" ->
    convert date_in (f_date (body rq)) = Some dt ->
    db_effect rq st
      (with_events (h_db st)
         (events (h_db st) ++ [event_row_of (body rq) dt None (h_db st)])
         (seq_events (h_db st) + 1))
| db_book id u n :
    target rq = PostBook id ->
    current_user st = Some u ->
    int4_in id = Some n ->
    db_effect rq st
      (with_bookings (h_db st)
         (bookings (h_db st) ++
            [{| b_id := seq_bookings (h_db st); b_user_id := u_id u;
                b_event_id := n |}])
         (seq_bookings (h_db st) + 1))
| db_admin_delete id u n :
    target rq = PostAdminDelete id ->
    current_user st = Some u -> u_role u = "admin" ->
    int4_in id = Some n ->
    db_effect rq st
      (with_events (h_db st)
         (List.filter (fun e => negb (e_id e =? n)) (events (h_db st)))
         (seq_events (h_db st))).

(** Generated identifiers: below the sequence and pairwise distinct. *)
Definition ids_fresh (d : database) : Prop :=
  (Forall (fun u => u_id u < seq_users d) (users d)
   /\ NoDup (map u_id (users d)))
  /\ (Forall (fun e => e_id e < seq_events d) (events d)
      /\ NoDup (map e_id (events d)))
  /\ (Forall (fun b => b_id b < seq_bookings d) (bookings d)
      /\ NoDup (map b_id (bookings d))).

(** The routes whose handler issues an INSERT or a DELETE. *)
Definition writes (t : route) : bool :=
  match t with
  | PostSignup | PostCreateEvent | PostBook _
  | PostAdminAdd | PostAdminDelete _ => true
  | _ => false
  end.

(** The same rows in all three tables. *)
Definition same_rows (d d' : database) : Prop :=
  users d' = users d /\ events d' = events d /\ bookings d' = bookings d.

(** ** Sample collaborators, for running the model on concrete requests *)

Fixpoint digits (s : string) (acc : Z) : option Z :=
  match s with
  | EmptyString => Some acc
  | String c s' =>
      let n := Z.of_N (Ascii.N_of_ascii c) in
      if (48 <=? n) && (n <=? 57) then digits s' (10 * acc + (n - 48)) else None
  end.

Definition decimal (s : string) : option Z :=
  match s with
  | EmptyString => None
  | _ => digits s 0
  end.

Definition sample_bcrypt : CredentialService :=
  {| hash := fun _ _ p => String.append "$" p;
     verify := fun p h => bool_decide (h = String.append "$" p) |}.

Definition sample_sql : SqlInput :=
  {| date_in := decimal; int4_in := decimal |}.

Definition calm : env :=
  {| env_faults := []; env_salt := "salt"; env_sid := "s1" |}.

Definition signup_form (name password : string) (role : field) : form :=
  {| f_username := Some name; f_password := Some password; f_role := role;
     f_title := None; f_date := None; f_location := None |}.

Definition event_form (title date location : string) : form :=
  {| f_username := None; f_password := None; f_role := None;
     f_title := Some title; f_date := Some date; f_location := Some location |}.

Definition alice : user_row :=
  {| u_id := 1; u_username := Some "alice"; u_password := "$secret";
     u_role := "user" |}.

Definition root : user_row :=
  {| u_id := 2; u_username := Some "root"; u_password := "$toor";
     u_role := "admin" |}.

Definition party : event_row :=
  {| e_id := 1; e_title := Some "party"; e_date := Some 30;
     e_location := Some "hall"; e_user_id := Some 1 |}.

Definition fair : event_row :=
  {| e_id := 2; e_title := Some "fair"; e_date := Some 10;
     e_location := Some "square"; e_user_id := None |}.

Definition gala : event_row :=
  {| e_id := 3; e_title := Some "gala"; e_date := Some 20;
     e_location := Some "pier"; e_user_id := Some 2 |}.

Definition sample_db : database :=
  {| users := [alice; root]; events := [party; fair; gala]; bookings := [];
     seq_users := 3; seq_events := 4; seq_bookings := 1 |}.

Definition state_of (d : database) (user : option user_row) (fs : list bool) : hstate :=
  {| h_db := d; h_session := Some {| sess_user := user |}; h_sid := "s0";
     h_store := ∅; h_faults := fs; h_salt := "salt"; h_trace := [];
     h_reply := None |}.

Definition login_form (name password : string) : form :=
  signup_form name password None.

Definition post (c : option string) (t : route) (b : form) : request :=
  {| cookie := c; target := t; body := b |}.

(** An environment whose first query is rejected. *)
Definition stormy : env :=
  {| env_faults := [true]; env_salt := "salt"; env_sid := "s2" |}.

(** A world in which the session "s1" belongs to a logged-in user. *)
Definition logged_in_world : world :=
  @run sample_bcrypt sample_sql
    [(calm, post None PostSignup (signup_form "bob" "pw" None));
     (calm, post (Some "s1") PostLogin (login_form "bob" "pw"))]
    empty_world.

(** A form body that carries a username and nothing else. *)
Definition name_only_form (name : string) : form :=
  {| f_username := Some name; f_password := None; f_role := None;
     f_title := None; f_date := None; f_location := None |}.

(** The row of "bob" in [logged_in_world]. *)
Definition bob : user_row :=
  {| u_id := 1; u_username := Some "bob"; u_password := "$pw";
     u_role := "user" |}.

(** ** Ordering by date *)

Lemma date_le_total a b : date_le a b = false -> date_le b a = true.
Proof.
  destruct a as [x|], b as [y|]; simpl; try done.
  intros Hxy. apply Z.leb_le. apply Z.leb_gt in Hxy. lia.
Qed.

Lemma date_le_trans a b c :
  date_le a b = true -> date_le b c = true -> date_le a c = true.
Proof.
  destruct a as [x|], b as [y|], c as [z|]; simpl; try done.
  rewrite !Z.leb_le. lia.
Qed.

Lemma insert_by_date_perm e l : insert_by_date e l ≡ₚ e :: l.
Proof.
  induction l as [|x l IH]; simpl; [done|].
  destruct (date_le (e_date x) (e_date e)); [|done].
  rewrite IH. apply Permutation_swap.
Qed.

Lemma order_by_date_perm l : order_by_date l ≡ₚ l.
Proof.
  induction l as [|e l IH]; simpl; [done|].
  by rewrite insert_by_date_perm, IH.
Qed.

Lemma insert_by_date_hd e x l :
  by_date x e -> HdRel by_date x l -> HdRel by_date x (insert_by_date e l).
Proof.
  intros Hxe Hhd. destruct l as [|y l]; simpl; [by constructor|].
  inversion_clear Hhd.
  destruct (date_le (e_date y) (e_date e)); by constructor.
Qed.

Lemma insert_by_date_sorted e l :
  Sorted by_date l -> Sorted by_date (insert_by_date e l).
Proof.
  induction 1 as [|x l Hl IH Hhd]; simpl.
  - repeat constructor.
  - destruct (date_le (e_date x) (e_date e)) eqn:Hle.
    + constructor; [done|]. by apply insert_by_date_hd.
    + constructor; [by constructor|].
      constructor. by apply date_le_total.
Qed.

Lemma order_by_date_adjacent l : Sorted by_date (order_by_date l).
Proof.
  induction l as [|e l IH]; simpl; [constructor|].
  by apply insert_by_date_sorted.
Qed.

#[local] Instance by_date_trans : Transitive by_date.
Proof. intros a b c. apply date_le_trans. Qed.

(** Every row of the result is dated no later than every row after it. *)
Lemma order_by_date_sorted l : StronglySorted by_date (order_by_date l).
Proof.
  apply Sorted_StronglySorted; [apply by_date_trans|].
  apply order_by_date_adjacent.
Qed.

(** The owner test of the query is the filter "owner equals [uid]". *)
Lemma filter_owned_by uid l :
  List.filter (owned_by uid) l = filter (fun e => e_user_id e = Some uid) l.
Proof.
  induction l as [|e l IH]; simpl; [done|].
  rewrite filter_cons, <- IH. unfold owned_by at 1.
  destruct (decide (e_user_id e = Some uid)) as [Heq|Hne].
  - by rewrite Heq, Z.eqb_refl.
  - destruct (e_user_id e) as [o|]; [|done].
    destruct (Z.eqb_spec o uid); [congruence|done].
Qed.

(** ** Running queries in a quiet environment *)

Lemma quiet_tail fs : quiet fs -> quiet (tail fs).
Proof. destruct 1; simpl; [constructor|done]. Qed.

Section Queries.
Context `{CredentialService} `{SqlInput}.

Lemma db_query_resolves q st r d :
  quiet (h_faults st) ->
  run_query q (h_db st) = Some (r, d) ->
  db_query q st =
    (Ok r, set_db d (emit (Issued q) (set_faults (tail (h_faults st)) st))).
Proof.
  intros Hq Hrun. unfold db_query. rewrite Hrun.
  destruct Hq as [|b fs Hb _]; [done|]. by rewrite Hb.
Qed.

Lemma db_query_rejects q st fs :
  h_faults st = true :: fs ->
  db_query q st =
    (Throw (QueryRejected q),
     emit (Rejected q) (emit (Issued q) (set_faults fs st))).
Proof. intros Hf. unfold db_query. by rewrite Hf. Qed.

End Queries.

(** ** Listing events: GET / and GET /admin *)

Section Listing.
Context `{CredentialService} `{SqlInput}.

Lemma get_home_anonymous st :
  current_user st = None ->
  get_home st = (Ok tt, finish (rendered "index" (UserEvents None [])) st).
Proof. intros Hu. unfold get_home, bind, session_user. by rewrite Hu. Qed.

Lemma get_home_logged_in st u :
  current_user st = Some u -> quiet (h_faults st) ->
  exists evs st',
    get_home st = (Ok tt, st')
    /\ h_reply st' = Some (rendered "index" (UserEvents (Some u) evs))
    /\ StronglySorted by_date evs
    /\ (u_role u = "admin" -> evs ≡ₚ events (h_db st))
    /\ (u_role u <> "admin" ->
          evs ≡ₚ filter (fun e => e_user_id e = Some (u_id u))
                   (events (h_db st))).
Proof.
  intros Hu Hq. unfold get_home, bind, session_user. rewrite Hu.
  unfold is_admin. case_bool_decide as Hrole.
  - erewrite db_query_resolves by (done || reflexivity). simpl.
    eexists _, _. split; [reflexivity|]. split; [done|].
    split; [apply order_by_date_sorted|].
    split; [intros _; apply order_by_date_perm|done].
  - erewrite db_query_resolves by (done || reflexivity). simpl.
    eexists _, _. split; [reflexivity|]. split; [done|].
    split; [apply order_by_date_sorted|].
    split; [done|].
    intros _. rewrite order_by_date_perm. by rewrite filter_owned_by.
Qed.

(** C6. GET /: without a session user the home view is rendered with
    the empty list and the reply is the handler's only effect (no
    query is issued); with a session user and no rejected query, the
    view gets a list ordered by date ascending which is, for an admin,
    all the event rows, and otherwise exactly the rows whose owner is
    the session user's id. *)
Theorem home_listing (st : hstate) :
  (current_user st = None ->
     get_home st =
       (Ok tt, finish (rendered "index" (UserEvents None [])) st))
  /\ (forall u, current_user st = Some u -> quiet (h_faults st) ->
        exists evs st',
          get_home st = (Ok tt, st')
          /\ h_reply st' = Some (rendered "index" (UserEvents (Some u) evs))
          /\ StronglySorted by_date evs
          /\ (u_role u = "admin" -> evs ≡ₚ events (h_db st))
          /\ (u_role u <> "admin" ->
                evs ≡ₚ filter (fun e => e_user_id e = Some (u_id u))
                         (events (h_db st)))).
Proof.
  split; [apply get_home_anonymous|].
  intros u Hu Hq. by apply get_home_logged_in.
Qed.

(** C1. GET /admin: without a session user the reply is a redirect to
    /login and nothing else happens (no query); with a session user
    whose role is not "admin" the reply is the text "Access denied"
    with status 200 and nothing else happens; with an admin and no
    rejected query the admin view is rendered with all the event rows,
    whoever owns them. *)
Theorem admin_listing (st : hstate) :
  (current_user st = None ->
     get_admin st =
       (Ok tt, finish (redirected "/login") st))
  /\ (forall u, current_user st = Some u -> u_role u <> "admin" ->
        get_admin st =
          (Ok tt, finish (sent "Access denied") st)
        /\ status (sent "Access denied") = 200)
  /\ (forall u, current_user st = Some u -> u_role u = "admin" ->
        quiet (h_faults st) ->
        exists evs st',
          get_admin st = (Ok tt, st')
          /\ h_reply st' = Some (rendered "admin" (UserEvents (Some u) evs))
          /\ evs ≡ₚ events (h_db st)
          /\ StronglySorted by_date evs).
Proof.
  split; [|split].
  - intros Hu. unfold get_admin, requireLogin, bind, session_user.
    by rewrite Hu.
  - intros u Hu Hrole.
    unfold get_admin, requireLogin, admin_only, bind, session_user.
    rewrite !Hu. unfold is_admin. by rewrite bool_decide_false.
  - intros u Hu Hrole Hq.
    unfold get_admin, requireLogin, admin_only, bind, session_user.
    rewrite !Hu. unfold is_admin. rewrite bool_decide_true by done.
    erewrite db_query_resolves by (done || reflexivity). simpl.
    eexists _, _. split; [reflexivity|]. unfold current_user in *. simpl.
    rewrite Hu. split; [done|].
    split; [apply order_by_date_perm|apply order_by_date_sorted].
Qed.

(** C9. For a logged-in user who is not an admin, whatever the events
    table holds, the list GET / renders contains no event without an
    owner: every listed event is owned by the session user.  And POST
    /admin/add, for an admin, appends an event without an owner. *)
Theorem home_hides_ownerless (st : hstate) (u : user_row) :
  current_user st = Some u -> u_role u <> "admin" -> quiet (h_faults st) ->
  (exists evs st',
     get_home st = (Ok tt, st')
     /\ h_reply st' = Some (rendered "index" (UserEvents (Some u) evs))
     /\ Forall (fun e => e_user_id e <> None) evs
     /\ Forall (fun e => e_user_id e = Some (u_id u)) evs)
  /\ (forall (b : form) (a : user_row) (sa : hstate) (dt : option Z),
        current_user sa = Some a -> u_role a = "admin" ->
        quiet (h_faults sa) -> convert date_in (f_date b) = Some dt ->
        exists (row : event_row) sa',
          post_admin_add b sa = (Ok tt, sa')
          /\ events (h_db sa') = (events (h_db sa) ++ [row])%list
          /\ e_user_id row = None).
Proof.
  intros Hu Hrole Hq. split.
  - destruct (get_home_logged_in st u Hu Hq)
      as (evs & st' & Hrun & Hreply & _ & _ & Hown).
    exists evs, st'. split; [done|]. split; [done|].
    specialize (Hown Hrole).
    assert (Hall : Forall (fun e => e_user_id e = Some (u_id u)) evs).
    { apply Forall_forall. intros e He.
      rewrite Hown in He. by apply list_elem_of_filter in He as [? _]. }
    split; [|done].
    eapply Forall_impl; [exact Hall|]. simpl. intros e He. by rewrite He.
  - intros b a sa dt Ha Hadm Hqa Hdt.
    unfold post_admin_add, requireLogin, admin_only, bind, session_user.
    rewrite !Ha. unfold is_admin. rewrite bool_decide_true by done.
    erewrite db_query_resolves; [| done | simpl; rewrite Hdt; reflexivity].
    simpl. eexists _, _. split; [reflexivity|]. by split.
Qed.

End Listing.

(** ** Looking users up by name *)

Arguments named : simpl never.

Lemma named_spec name u :
  named name u = true <-> exists n, name = Some n /\ u_username u = Some n.
Proof.
  unfold named. destruct name as [n|], (u_username u) as [m|].
  - rewrite bool_decide_eq_true. split.
    + intros ->. by exists m.
    + intros (k & Hk & Hm). congruence.
  - split; [done|]. by intros (k & _ & ?).
  - split; [done|]. by intros (k & ? & _).
  - split; [done|]. by intros (k & ? & _).
Qed.

Lemma lookup_unknown name l :
  (forall u n, u ∈ l -> name = Some n -> u_username u <> Some n) ->
  List.filter (named name) l = [].
Proof.
  intros Hfresh. induction l as [|x l IH]; simpl; [done|].
  destruct (named name x) eqn:Hx.
  - apply named_spec in Hx as (n & Hn & Hxn).
    exfalso. eapply Hfresh; [apply list_elem_of_here|done..].
  - apply IH. intros u n Hu. apply Hfresh. by apply list_elem_of_further.
Qed.

Lemma lookup_member name l u :
  u ∈ List.filter (named name) l ->
  u ∈ l /\ exists n, name = Some n /\ u_username u = Some n.
Proof.
  rewrite list_elem_of_In, List.filter_In, <- list_elem_of_In.
  by rewrite named_spec.
Qed.

Lemma lookup_known n l u :
  u ∈ l -> u_username u = Some n -> exists v rest,
    List.filter (named (Some n)) l = v :: rest.
Proof.
  intros Hu Hn.
  assert (Hin : u ∈ List.filter (named (Some n)) l).
  { rewrite list_elem_of_In, List.filter_In, <- list_elem_of_In.
    split; [done|]. apply named_spec. by exists n. }
  destruct (List.filter (named (Some n)) l) as [|v rest]; [|by eauto].
  by apply not_elem_of_nil in Hin.
Qed.

Lemma lookup_unique n l u :
  unique_usernames l -> u ∈ l -> u_username u = Some n ->
  List.filter (named (Some n)) l = [u].
Proof.
  unfold unique_usernames. induction l as [|x l IH]; intros Hnd Hu Hn.
  - by apply not_elem_of_nil in Hu.
  - simpl in *. destruct (named (Some n) x) eqn:Hx.
    + apply named_spec in Hx as (k & [= <-] & Hxn).
      rewrite Hxn in Hnd. apply NoDup_cons in Hnd as [Hnot Hnd].
      assert (Hrest : List.filter (named (Some n)) l = []).
      { apply lookup_unknown. intros v k Hv [= <-] Hvn. apply Hnot.
        apply list_elem_of_omap. by exists v. }
      rewrite Hrest. apply elem_of_cons in Hu as [->|Hu]; [done|].
      exfalso. apply Hnot. apply list_elem_of_omap. by exists u.
    + apply elem_of_cons in Hu as [->|Hu].
      * assert (named (Some n) x = true) by (apply named_spec; by exists n).
        congruence.
      * apply IH; [|done..].
        destruct (u_username x); [by apply NoDup_cons in Hnd as [_ ?]|done].
Qed.

(** ** Signing up and logging in *)

Section Accounts.
Context `{CredentialService} `{SqlInput}.

Lemma select_user_resolves name st :
  quiet (h_faults st) ->
  db_query (SelectUser name) st =
    (Ok (UserRows (List.filter (named name) (users (h_db st)))),
     after_select (SelectUser name) st).
Proof. intros Hq. by erewrite db_query_resolves. Qed.

Lemma post_login_unknown b st :
  quiet (h_faults st) ->
  List.filter (named (f_username b)) (users (h_db st)) = [] ->
  post_login b st =
    (Ok tt, finish (sent invalid_message)
              (after_select (SelectUser (f_username b)) st)).
Proof.
  intros Hq Hnone. unfold post_login, bind.
  rewrite select_user_resolves by done. simpl. by rewrite Hnone.
Qed.

Lemma post_login_found b st u rest pw :
  quiet (h_faults st) ->
  List.filter (named (f_username b)) (users (h_db st)) = u :: rest ->
  f_password b = Some pw ->
  post_login b st =
    (Ok tt,
     if verify pw (u_password u)
     then finish (redirected "/")
            (set_session (Some {| sess_user := Some u |})
               (after_select (SelectUser (f_username b)) st))
     else finish (sent invalid_message)
            (after_select (SelectUser (f_username b)) st)).
Proof.
  intros Hq Hrows Hpw. unfold post_login, bind.
  rewrite select_user_resolves by done. simpl. rewrite Hrows, Hpw. simpl.
  by destruct (verify pw (u_password u)).
Qed.

Lemma post_signup_taken b st u rest :
  quiet (h_faults st) ->
  List.filter (named (f_username b)) (users (h_db st)) = u :: rest ->
  post_signup b st =
    (Ok tt, finish (sent taken_message)
              (after_select (SelectUser (f_username b)) st)).
Proof.
  intros Hq Hrows. unfold post_signup, try_catch, bind.
  rewrite select_user_resolves by done. simpl. by rewrite Hrows.
Qed.

Lemma post_signup_fresh b st pw :
  quiet (h_faults st) ->
  List.filter (named (f_username b)) (users (h_db st)) = [] ->
  f_password b = Some pw ->
  exists st',
    post_signup b st = (Ok tt, st')
    /\ h_reply st' = Some (redirected "/login")
    /\ users (h_db st') = (users (h_db st) ++ [signup_row b pw st])%list
    /\ events (h_db st') = events (h_db st)
    /\ h_trace st' =
         (h_trace st ++
            [Issued (SelectUser (f_username b));
             Issued (InsertUser (f_username b) (hash 10 (h_salt st) pw)
                       (or_else (f_role b) "user"));
             Replied (redirected "/login")])%list.
Proof.
  intros Hq Hnone Hpw. unfold post_signup, try_catch, bind.
  rewrite select_user_resolves by done. simpl. rewrite Hnone, Hpw. simpl.
  erewrite db_query_resolves; [| by apply quiet_tail | reflexivity].
  simpl. eexists. split; [reflexivity|]. simpl.
  rewrite <- !app_assoc. by repeat split.
Qed.

End Accounts.

Lemma filter_username_none n (l : list user_row) :
  (forall u, u ∈ l -> u_username u <> Some n) ->
  filter (fun u => u_username u = Some n) l = [].
Proof.
  induction l as [|x l IH]; intros Hfresh; [done|].
  rewrite filter_cons_False.
  - apply IH. intros u Hu. apply Hfresh. by apply list_elem_of_further.
  - apply Hfresh. apply list_elem_of_here.
Qed.

Section Server.
Context `{CredentialService} `{SqlInput}.

Lemma enter_db en rq w : h_db (enter en rq w) = w_db w.
Proof. unfold enter. by destruct (load_session _ _ _). Qed.

Lemma enter_faults en rq w : h_faults (enter en rq w) = env_faults en.
Proof. unfold enter. by destruct (load_session _ _ _). Qed.

Lemma enter_salt en rq w : h_salt (enter en rq w) = env_salt en.
Proof. unfold enter. by destruct (load_session _ _ _). Qed.

Lemma enter_trace en rq w : h_trace (enter en rq w) = [].
Proof. unfold enter. by destruct (load_session _ _ _). Qed.

Lemma enter_reply en rq w : h_reply (enter en rq w) = None.
Proof. unfold enter. by destruct (load_session _ _ _). Qed.

Lemma serve_handler en rq w :
  serve en rq w =
    (leave (handler rq (enter en rq w)).2,
     {| o_result := (handler rq (enter en rq w)).1;
        o_reply := h_reply (handler rq (enter en rq w)).2;
        o_trace := h_trace (handler rq (enter en rq w)).2;
        o_sid := h_sid (handler rq (enter en rq w)).2 |}).
Proof. unfold serve. by destruct (handler rq (enter en rq w)). Qed.

End Server.

Section AccountClaims.
Context `{CredentialService} `{SqlInput}.

(** C4 (as amended). POST /signup with a username that no user row
    has, when the request submits a password and no query is
    rejected: the handler answers with a redirect to /login and
    appends exactly one row, which carries the submitted username and,
    when a username is submitted, is afterwards the only row with that
    username; its role is "user" when the request gives no role, and
    its stored password is the Credential Service's hash of the
    submitted plaintext, which differs from the plaintext and which
    verify accepts for it. *)
Theorem signup_fresh `{!CredentialLaws} (b : form) (st : hstate) (pw : string) :
  quiet (h_faults st) ->
  f_password b = Some pw ->
  (forall u n, u ∈ users (h_db st) -> f_username b = Some n ->
               u_username u <> Some n) ->
  exists row st',
    post_signup b st = (Ok tt, st')
    /\ h_reply st' = Some (redirected "/login")
    /\ users (h_db st') = (users (h_db st) ++ [row])%list
    /\ u_username row = f_username b
    /\ (forall n, f_username b = Some n ->
          filter (fun u => u_username u = Some n) (users (h_db st')) = [row])
    /\ (f_role b = None -> u_role row = "user")
    /\ u_password row = hash 10 (h_salt st) pw
    /\ u_password row <> pw
    /\ verify pw (u_password row) = true.
Proof.
  intros Hq Hpw Hfresh.
  destruct (post_signup_fresh b st pw) as (st' & Hrun & Hreply & Husers & _);
    [done|by apply lookup_unknown|done|].
  exists (signup_row b pw st), st'. split; [done|]. split; [done|].
  split; [done|]. split; [done|].
  split.
  { intros n Hn.
    rewrite Husers, filter_app, filter_username_none
      by (intros u Hu; by apply Hfresh).
    by rewrite filter_cons_True. }
  split; [by intros Hrole; simpl; rewrite Hrole|].
  split; [done|]. simpl. split; [apply hash_not_plain|apply verify_hash].
Qed.

(** C5. POST /signup with the username of an existing user row, when
    the lookup is not rejected: the answer is the "already taken"
    message, the lookup is the only query issued and the tables are
    unchanged.  Hence two signups in a row with the same fresh
    username leave exactly one row with that username, the second
    being answered "already taken". *)
Theorem signup_collision :
  (forall (b : form) (st : hstate) (u : user_row) (n : string),
     quiet (h_faults st) -> f_username b = Some n ->
     u ∈ users (h_db st) -> u_username u = Some n ->
     exists st',
       post_signup b st = (Ok tt, st')
       /\ h_reply st' = Some (sent taken_message)
       /\ h_db st' = h_db st
       /\ h_trace st' =
            (h_trace st ++
               [Issued (SelectUser (Some n)); Replied (sent taken_message)])%list)
  /\ (forall (en1 en2 : env) (rq1 rq2 : request) (w : world) (n pw : string),
        target rq1 = PostSignup -> target rq2 = PostSignup ->
        f_username (body rq1) = Some n -> f_username (body rq2) = Some n ->
        f_password (body rq1) = Some pw ->
        quiet (env_faults en1) -> quiet (env_faults en2) ->
        (forall u, u ∈ users (w_db w) -> u_username u <> Some n) ->
        let w1 := (serve en1 rq1 w).1 in
        let w2 := (serve en2 rq2 w1).1 in
        o_reply (serve en2 rq2 w1).2 = Some (sent taken_message)
        /\ users (w_db w2) = users (w_db w1)
        /\ length (filter (fun u => u_username u = Some n) (users (w_db w2)))
           = 1%nat).
Proof.
  split.
  - intros b st u n Hq Hn Hu Hun.
    destruct (lookup_known n (users (h_db st)) u) as (v & rest & Hrows);
      [done..|].
    rewrite <- Hn in Hrows.
    eexists. split; [by eapply post_signup_taken|].
    rewrite Hn. simpl. rewrite <- app_assoc. by repeat split.
  - intros en1 en2 rq1 rq2 w n pw Ht1 Ht2 Hn1 Hn2 Hpw Hq1 Hq2 Hfresh w1 w2.
    subst w1 w2. rewrite !serve_handler. simpl.
    unfold handler. rewrite Ht1, Ht2.
    destruct (post_signup_fresh (body rq1) (enter en1 rq1 w) pw)
      as (st1 & Hrun1 & _ & Husers1 & _).
    { by rewrite enter_faults. }
    { apply lookup_unknown. intros u k Hu. rewrite Hn1. intros [= <-].
      rewrite enter_db in Hu. by apply Hfresh. }
    { done. }
    rewrite Hrun1. simpl.
    set (w1 := leave st1).
    assert (Hw1 : users (w_db w1) =
                  (users (w_db w) ++
                     [signup_row (body rq1) pw (enter en1 rq1 w)])%list).
    { subst w1. simpl. by rewrite Husers1, enter_db. }
    destruct (lookup_known n (users (h_db (enter en2 rq2 w1)))
                (signup_row (body rq1) pw (enter en1 rq1 w)))
      as (v & rest & Hrows).
    { rewrite enter_db, Hw1. apply elem_of_app. right. apply list_elem_of_here. }
    { done. }
    rewrite <- Hn2 in Hrows.
    erewrite post_signup_taken; [| by rewrite enter_faults | exact Hrows].
    simpl. split; [done|]. rewrite enter_db. split; [done|].
    rewrite Hw1, filter_app, filter_username_none by done.
    by rewrite filter_cons_True.
Qed.


(** C10. Two failing POST /login requests, one whose username matches
    no user row and one whose username exists but whose password
    verify rejects, get the same answer: the "Invalid credentials"
    message. *)
Theorem login_failures_alike (b1 b2 : form) (st1 st2 : hstate) (pw2 : string) :
  quiet (h_faults st1) -> quiet (h_faults st2) ->
  (forall u n, u ∈ users (h_db st1) -> f_username b1 = Some n ->
               u_username u <> Some n) ->
  f_password b2 = Some pw2 ->
  (exists u n, u ∈ users (h_db st2) /\ f_username b2 = Some n
               /\ u_username u = Some n) ->
  (forall u n, u ∈ users (h_db st2) -> f_username b2 = Some n ->
               u_username u = Some n -> verify pw2 (u_password u) = false) ->
  exists st1' st2',
    post_login b1 st1 = (Ok tt, st1')
    /\ post_login b2 st2 = (Ok tt, st2')
    /\ h_reply st1' = h_reply st2'
    /\ h_reply st1' = Some (sent invalid_message).
Proof.
  intros Hq1 Hq2 Hnone Hpw (u & n & Hu & Hn & Hun) Hrej.
  destruct (lookup_known n (users (h_db st2)) u) as (v & rest & Hrows);
    [done..|].
  rewrite <- Hn in Hrows.
  assert (Hv : v ∈ List.filter (named (f_username b2)) (users (h_db st2))).
  { rewrite Hrows. apply list_elem_of_here. }
  apply lookup_member in Hv as (Hin & k & Hk & Hvk).
  eexists _, _. split; [apply post_login_unknown; [done|]|].
  { by apply lookup_unknown. }
  split; [by eapply post_login_found|].
  by rewrite (Hrej v k Hin Hk Hvk).
Qed.

End AccountClaims.

(** ** Rejected queries *)

Arguments db_query : simpl never.

Section Rejections.
Context `{CredentialService} `{SqlInput}.

Lemma db_query_cases q st :
  (exists r d,
     run_query q (h_db st) = Some (r, d)
     /\ db_query q st =
          (Ok r, set_db d (emit (Issued q) (set_faults (tail (h_faults st)) st))))
  \/ db_query q st =
       (Throw (QueryRejected q),
        emit (Rejected q) (emit (Issued q) (set_faults (tail (h_faults st)) st))).
Proof.
  unfold db_query. destruct (h_faults st) as [|[] fs]; simpl.
  - destruct (run_query q (h_db st)) as [[r d]|]; eauto.
  - by right.
  - destruct (run_query q (h_db st)) as [[r d]|]; eauto.
Qed.

End Rejections.

Ltac query_cases :=
  match goal with
  | |- context [db_query ?q ?s] =>
      let r := fresh "r" in
      let d := fresh "d" in
      let Hrun := fresh "Hrun" in
      destruct (db_query_cases q s) as [(r & d & Hrun & ->) | ->]
  end.

Ltac branch :=
  match goal with
  | |- context [match ?x with _ => _ end] =>
      lazymatch x with
      | context [match _ with _ => _ end] => fail
      | _ => destruct x eqn:?
      end
  end.

Ltac run_handler :=
  unfold handler, get_home, get_signup, post_signup, get_login, post_login,
    get_logout, get_create_event, post_create_event, post_book, get_admin,
    post_admin_add, post_admin_delete, requireLogin, admin_only,
    session_user_id, session_user, session_destroy, set_session_user,
    bcrypt_hash, bcrypt_compare, console_error, res_send, res_render,
    res_redirect, reply, try_catch, bind, ret, throw;
  repeat (cbn beta iota; first [query_cases | branch]);
  simpl.

Ltac trace_members Hin :=
  repeat (first
    [ apply elem_of_cons in Hin as [Hin|Hin]; [try discriminate Hin|]
    | apply elem_of_nil in Hin; destruct Hin ]).

Section RejectionClaims.
Context `{CredentialService} `{SqlInput}.

Lemma handler_rejection rq st q :
  h_trace st = [] -> h_reply st = None ->
  Rejected q ∈ h_trace (handler rq st).2 ->
  (target rq = PostSignup ->
     (handler rq st).1 = Ok tt
     /\ h_reply (handler rq st).2 = Some (sent failure_message)
     /\ Logged (QueryRejected q) ∈ h_trace (handler rq st).2)
  /\ (target rq <> PostSignup ->
        (handler rq st).1 = Throw (QueryRejected q)
        /\ h_reply (handler rq st).2 = None).
Proof.
  intros Ht Hr. destruct rq as [c t b]. simpl.
  destruct t; run_handler; rewrite ?Ht, ?Hr; simpl; intros Hin;
    trace_members Hin; simplify_eq.
  all: try (split; [|done]); try done.
  all: intros _; split; [done|]; split; [done|]; set_solver.
Qed.

End RejectionClaims.

(** C7. A query rejection while a request is served: in POST /signup
    it is caught, logged and answered with the generic failure
    message; in every other route (GET /, POST /login, POST
    /create-event, POST /book/:id, GET /admin, POST /admin/add, POST
    /admin/delete/:id) it leaves the handler as an uncaught exception
    and the handler sends no reply. *)
Theorem rejection_handling `{CredentialService} `{SqlInput}
    (en : env) (rq : request) (w : world) (q : query) :
  Rejected q ∈ o_trace (serve en rq w).2 ->
  (target rq = PostSignup ->
     o_result (serve en rq w).2 = Ok tt
     /\ o_reply (serve en rq w).2 = Some (sent failure_message)
     /\ Logged (QueryRejected q) ∈ o_trace (serve en rq w).2)
  /\ (target rq <> PostSignup ->
        o_result (serve en rq w).2 = Throw (QueryRejected q)
        /\ o_reply (serve en rq w).2 = None).
Proof.
  rewrite serve_handler. simpl.
  apply handler_rejection; [apply enter_trace|apply enter_reply].
Qed.

(** ** What a request does to the users table and the session store *)

Section Frames.
Context `{CredentialService} `{SqlInput}.

Lemma run_query_users q d r d' :
  run_query q d = Some (r, d') ->
  (forall name hashed role, q <> InsertUser name hashed role) ->
  users d' = users d.
Proof.
  intros Hrun Hq. destruct q; simpl in Hrun;
    repeat case_match; simplify_eq; try done.
  by destruct (Hq name hashed role).
Qed.

Lemma handler_users rq st :
  target rq <> PostSignup ->
  users (h_db (handler rq st).2) = users (h_db st).
Proof.
  intros Ht. destruct rq as [c t b]. simpl in *.
  destruct t; try done; run_handler;
    repeat match goal with
      | Hrun : run_query _ _ = Some _ |- _ =>
          apply run_query_users in Hrun; [|done]
      end;
    simpl in *; congruence.
Qed.

Lemma post_signup_users b st :
  users (h_db (post_signup b st).2) = users (h_db st)
  \/ exists pw,
       List.filter (named (f_username b)) (users (h_db st)) = []
       /\ users (h_db (post_signup b st).2) =
            (users (h_db st) ++ [signup_row b pw st])%list.
Proof.
  run_handler;
    repeat match goal with
      | Hrun : run_query _ _ = Some _ |- _ => simpl in Hrun; simplify_eq
      end;
    simpl in *; try (by left).
  right. eexists. split; [|reflexivity].
  destruct (List.filter _ _); [done|].
  by rewrite bool_decide_true in * by (simpl; lia).
Qed.

Lemma handler_session_store rq st :
  h_sid (handler rq st).2 = h_sid st
  /\ (h_store (handler rq st).2 = h_store st
      \/ h_store (handler rq st).2 = delete (h_sid st) (h_store st)).
Proof.
  destruct rq as [c t b]. simpl.
  destruct t; run_handler; auto.
Qed.

End Frames.

Section Invariants.
Context `{CredentialService} `{SqlInput}.

Lemma serve_users en rq w :
  users (w_db (serve en rq w).1) = users (w_db w)
  \/ exists pw,
       target rq = PostSignup
       /\ List.filter (named (f_username (body rq))) (users (w_db w)) = []
       /\ users (w_db (serve en rq w).1) =
            (users (w_db w) ++
               [signup_row (body rq) pw (enter en rq w)])%list.
Proof.
  rewrite serve_handler. simpl.
  destruct (decide (target rq = PostSignup)) as [Ht|Ht].
  - unfold handler. rewrite Ht.
    destruct (post_signup_users (body rq) (enter en rq w))
      as [Hsame|(pw & Hnone & Hadd)]; rewrite enter_db in *; [by left|].
    right. by exists pw.
  - left. by rewrite handler_users, enter_db.
Qed.

Lemma or_else_plain f :
  plain_role f -> or_else f "user" = "user" \/ or_else f "user" = "admin".
Proof. intros [Hf|[Hf|[Hf|Hf]]]; rewrite Hf; simpl; auto. Qed.

Lemma serve_roles en rq w :
  modest rq ->
  Forall role_valid (users (w_db w)) ->
  Forall role_valid (users (w_db (serve en rq w).1)).
Proof.
  intros Hrq Hinv.
  destruct (serve_users en rq w) as [->|(pw & Ht & _ & ->)]; [done|].
  apply Forall_app. split; [done|].
  constructor; [|constructor]. apply or_else_plain. by apply Hrq.
Qed.

Lemma lookup_none_fresh n l :
  List.filter (named (Some n)) l = [] -> n ∉ omap u_username l.
Proof.
  intros Hnone Hin. apply list_elem_of_omap in Hin as (u & Hu & Hn).
  destruct (lookup_known n l u) as (v & rest & Hrows); [done..|].
  congruence.
Qed.

Lemma serve_unique_usernames en rq w :
  unique_usernames (users (w_db w)) ->
  unique_usernames (users (w_db (serve en rq w).1)).
Proof.
  intros Hinv.
  destruct (serve_users en rq w) as [->|(pw & _ & Hnone & ->)]; [done|].
  unfold unique_usernames in *. rewrite omap_app. simpl.
  destruct (f_username (body rq)) as [n|]; simpl.
  - apply NoDup_app. split; [done|]. split; [|by apply NoDup_singleton].
    intros k Hk ->%list_elem_of_singleton.
    by apply lookup_none_fresh in Hnone.
  - by rewrite app_nil_r.
Qed.

(** Along every run from the empty database, usernames are unique. *)
Lemma run_unique_usernames reqs w :
  unique_usernames (users (w_db w)) ->
  unique_usernames (users (w_db (run reqs w))).
Proof.
  revert w. induction reqs as [|[en rq] reqs IH]; intros w Hinv; [done|].
  simpl. apply IH. by apply serve_unique_usernames.
Qed.

Lemma enter_sid en rq w sid :
  w_store w !! sid = None -> env_sid en <> sid -> h_sid (enter en rq w) <> sid.
Proof.
  intros Hnone Hfresh. unfold enter, load_session.
  destruct (cookie rq) as [c|]; [|done].
  destruct (w_store w !! c) eqn:Hc; [|done].
  simpl. intros ->. congruence.
Qed.

Lemma enter_store en rq w : h_store (enter en rq w) = w_store w.
Proof. unfold enter. by destruct (load_session _ _ _). Qed.

Lemma serve_store_absent en rq w sid :
  w_store w !! sid = None -> env_sid en <> sid ->
  w_store (serve en rq w).1 !! sid = None.
Proof.
  intros Hnone Hfresh. rewrite serve_handler. simpl.
  destruct (handler_session_store rq (enter en rq w)) as [Hsid Hstore].
  pose proof (enter_sid en rq w sid Hnone Hfresh) as Hne.
  rewrite enter_store in Hstore.
  assert (Hafter : h_store (handler rq (enter en rq w)).2 !! sid = None).
  { destruct Hstore as [->| ->]; [done|]. by rewrite lookup_delete_ne. }
  destruct (h_reply _); [|done].
  destruct (h_session _); [|done].
  rewrite lookup_insert_ne; [done|]. by rewrite Hsid.
Qed.

Lemma run_store_absent reqs w sid :
  w_store w !! sid = None ->
  Forall (fun p => env_sid p.1 <> sid) reqs ->
  w_store (run reqs w) !! sid = None.
Proof.
  revert w. induction reqs as [|[en rq] reqs IH]; intros w Hnone Hfresh; [done|].
  apply Forall_cons in Hfresh as [Hen Hfresh].
  simpl. apply IH; [|done]. by apply serve_store_absent.
Qed.

Lemma enter_unknown_cookie en rq w sid :
  cookie rq = Some sid -> w_store w !! sid = None ->
  current_user (enter en rq w) = None.
Proof.
  intros Hc Hnone. unfold enter, load_session. by rewrite Hc, Hnone.
Qed.

End Invariants.

Section SessionClaims.
Context `{CredentialService} `{SqlInput}.

(** C8. GET /logout: the session is destroyed first and the redirect to
    / is sent after it; the store no longer knows the session's
    identifier, so every later request presenting that identifier
    (session identifiers not being handed out twice) carries no user,
    and [requireLogin] answers it with a redirect to /login without
    running the route. *)
Theorem logout_ends_session (en : env) (rq : request) (w : world) :
  target rq = GetLogout ->
  let w' := (serve en rq w).1 in
  let o := (serve en rq w).2 in
  o_result o = Ok tt
  /\ o_trace o = [Destroyed (o_sid o); Replied (redirected "/")]
  /\ w_store w' !! o_sid o = None
  /\ forall reqs en2 rq2 (next : H unit),
       Forall (fun p => env_sid p.1 <> o_sid o) reqs ->
       cookie rq2 = Some (o_sid o) ->
       let st2 := enter en2 rq2 (run reqs w') in
       current_user st2 = None
       /\ requireLogin next st2 = (Ok tt, finish (redirected "/login") st2).
Proof.
  intros Ht w' o.
  assert (Hgone : w_store w' !! o_sid o = None).
  { subst w' o. rewrite serve_handler. unfold handler. rewrite Ht. simpl.
    apply lookup_delete_eq. }
  split; [|split; [|split]]; [| |done|].
  - subst o. rewrite serve_handler. unfold handler. by rewrite Ht.
  - subst o. rewrite serve_handler. unfold handler. rewrite Ht. simpl.
    by rewrite enter_trace.
  - intros reqs en2 rq2 next Hfresh Hc st2.
    assert (Huser : current_user st2 = None).
    { subst st2. eapply enter_unknown_cookie; [done|].
      by apply run_store_absent. }
    split; [done|].
    unfold requireLogin, bind, session_user. by rewrite Huser.
Qed.

(** C2 (as amended). The row POST /signup inserts takes its role from
    the request: the submitted role when that is a non-empty string,
    "user" when it is absent or empty.  So when every signup request
    of a run submits a role that is absent, empty, "user" or "admin",
    the roles of the users table stay within "user" and "admin". *)
Theorem signup_role_from_request :
  (forall en rq w,
     target rq = PostSignup ->
     users (w_db (serve en rq w).1) = users (w_db w)
     \/ exists row,
          users (w_db (serve en rq w).1) = (users (w_db w) ++ [row])%list
          /\ u_role row = or_else (f_role (body rq)) "user")
  /\ (forall reqs w,
        Forall (fun p => modest p.2) reqs ->
        Forall role_valid (users (w_db w)) ->
        Forall role_valid (users (w_db (run reqs w)))).
Proof.
  split.
  - intros en rq w _.
    destruct (serve_users en rq w) as [->|(pw & _ & _ & ->)]; [by left|].
    right. by eexists.
  - intros reqs. induction reqs as [|[en rq] reqs IH]; intros w Hreqs Hinv;
      [done|].
    apply Forall_cons in Hreqs as [Hrq Hreqs].
    simpl. apply IH; [done|]. by apply serve_roles.
Qed.

End SessionClaims.

(** ** The claims on concrete requests *)

Lemma sample_hash_not_plain p c : String c p <> p.
Proof.
  revert c. induction p as [|a p IH]; intros c; [done|].
  intros [= -> Hp]. by apply (IH a).
Qed.

#[local] Existing Instance sample_bcrypt.
#[local] Existing Instance sample_sql.

#[local] Instance sample_bcrypt_laws : CredentialLaws.
Proof.
  split.
  - intros rounds salt p. simpl. by apply bool_decide_eq_true.
  - intros rounds salt p. simpl. apply sample_hash_not_plain.
Qed.

Lemma sample_users_fresh (n : string) (u : user_row) :
  n <> "alice" -> n <> "root" -> u ∈ users sample_db -> u_username u <> Some n.
Proof.
  intros Ha Hr Hu. simpl in Hu.
  apply elem_of_cons in Hu as [->|Hu]; [simpl; congruence|].
  apply elem_of_cons in Hu as [->|Hu]; [simpl; congruence|].
  by apply elem_of_nil in Hu.
Qed.

Lemma admin_listing_witness :
  get_admin (state_of sample_db None []) =
    (Ok tt, finish (redirected "/login") (state_of sample_db None []))
  /\ get_admin (state_of sample_db (Some alice) []) =
       (Ok tt, finish (sent "Access denied") (state_of sample_db (Some alice) []))
  /\ exists evs st',
       get_admin (state_of sample_db (Some root) []) = (Ok tt, st')
       /\ h_reply st' = Some (rendered "admin" (UserEvents (Some root) evs))
       /\ evs ≡ₚ [party; fair; gala]
       /\ StronglySorted by_date evs.
Proof.
  split; [|split].
  - apply (proj1 (admin_listing (state_of sample_db None []))). reflexivity.
  - apply (proj1 (proj2 (admin_listing (state_of sample_db (Some alice) []))) alice).
    + reflexivity.
    + vm_compute. discriminate.
  - apply (proj2 (proj2 (admin_listing (state_of sample_db (Some root) []))) root).
    + reflexivity.
    + reflexivity.
    + simpl. constructor.
Defined.

Lemma home_listing_witness :
  get_home (state_of sample_db None []) =
    (Ok tt, finish (rendered "index" (UserEvents None []))
              (state_of sample_db None []))
  /\ exists evs st',
       get_home (state_of sample_db (Some alice) []) = (Ok tt, st')
       /\ h_reply st' = Some (rendered "index" (UserEvents (Some alice) evs))
       /\ StronglySorted by_date evs
       /\ (u_role alice = "admin" -> evs ≡ₚ events sample_db)
       /\ (u_role alice <> "admin" ->
             evs ≡ₚ filter (fun e => e_user_id e = Some (u_id alice))
                      (events sample_db)).
Proof.
  split.
  - apply (proj1 (home_listing (state_of sample_db None []))). reflexivity.
  - apply (proj2 (home_listing (state_of sample_db (Some alice) [])) alice).
    + reflexivity.
    + simpl. constructor.
Defined.

Lemma home_hides_ownerless_witness :
  (exists evs st',
     get_home (state_of sample_db (Some alice) []) = (Ok tt, st')
     /\ h_reply st' = Some (rendered "index" (UserEvents (Some alice) evs))
     /\ Forall (fun e => e_user_id e <> None) evs
     /\ Forall (fun e => e_user_id e = Some (u_id alice)) evs)
  /\ exists (row : event_row) sa',
       post_admin_add (event_form "fete" "40" "park")
         (state_of sample_db (Some root) []) = (Ok tt, sa')
       /\ events (h_db sa') = (events sample_db ++ [row])%list
       /\ e_user_id row = None.
Proof.
  destruct (home_hides_ownerless (state_of sample_db (Some alice) []) alice)
    as [Hhome Hadd].
  - reflexivity.
  - vm_compute. discriminate.
  - simpl. constructor.
  - split; [exact Hhome|].
    apply (Hadd (event_form "fete" "40" "park") root
             (state_of sample_db (Some root) []) (Some 40)).
    + reflexivity.
    + reflexivity.
    + simpl. constructor.
    + reflexivity.
Defined.

Lemma signup_fresh_witness :
  exists row st',
    post_signup (signup_form "bob" "hunter2" None) (state_of sample_db None [])
      = (Ok tt, st')
    /\ h_reply st' = Some (redirected "/login")
    /\ users (h_db st') = (users sample_db ++ [row])%list
    /\ u_username row = Some "bob"
    /\ (forall n, Some "bob" = Some n ->
          filter (fun u => u_username u = Some n) (users (h_db st')) = [row])
    /\ (f_role (signup_form "bob" "hunter2" None) = None -> u_role row = "user")
    /\ u_password row = hash 10 "salt" "hunter2"
    /\ u_password row <> "hunter2"
    /\ verify "hunter2" (u_password row) = true.
Proof.
  apply (signup_fresh (signup_form "bob" "hunter2" None)
           (state_of sample_db None []) "hunter2").
  - simpl. constructor.
  - reflexivity.
  - intros u n Hu [= <-]. by apply sample_users_fresh.
Defined.

(** C4 (as stated) fails: a signup under a fresh username that submits
    no password is answered with the failure message and inserts no
    row. *)
Lemma signup_without_password_fails :
  let r := post_signup (name_only_form "bob") (state_of sample_db None []) in
  r.1 = Ok tt
  /\ h_reply r.2 = Some (sent failure_message)
  /\ h_reply r.2 <> Some (redirected "/login")
  /\ users (h_db r.2) = users sample_db
  /\ filter (fun u => u_username u = Some "bob") (users (h_db r.2)) = [].
Proof.
  simpl. split; [done|]. split; [done|]. split; [discriminate|].
  split; [done|]. by vm_compute.
Qed.

Lemma signup_collision_witness :
  (exists st',
     post_signup (signup_form "alice" "other" None) (state_of sample_db None [])
       = (Ok tt, st')
     /\ h_reply st' = Some (sent taken_message)
     /\ h_db st' = sample_db
     /\ h_trace st' =
          [Issued (SelectUser (Some "alice")); Replied (sent taken_message)])
  /\ (let w1 := (serve calm (post None PostSignup (signup_form "bob" "pw" None))
                   empty_world).1 in
      let w2 := (serve calm (post None PostSignup (signup_form "bob" "pw2" None))
                   w1).1 in
      o_reply (serve calm (post None PostSignup (signup_form "bob" "pw2" None))
                 w1).2 = Some (sent taken_message)
      /\ users (w_db w2) = users (w_db w1)
      /\ length (filter (fun u => u_username u = Some "bob") (users (w_db w2)))
         = 1%nat).
Proof.
  destruct signup_collision as [Htaken Htwice]. split.
  - apply (Htaken (signup_form "alice" "other" None)
             (state_of sample_db None []) alice "alice").
    + simpl. constructor.
    + reflexivity.
    + simpl. apply list_elem_of_here.
    + reflexivity.
  - apply (Htwice calm calm (post None PostSignup (signup_form "bob" "pw" None))
             (post None PostSignup (signup_form "bob" "pw2" None))
             empty_world "bob" "pw").
    + reflexivity.
    + reflexivity.
    + reflexivity.
    + reflexivity.
    + reflexivity.
    + simpl. constructor.
    + simpl. constructor.
    + simpl. intros u Hu. by apply elem_of_nil in Hu.
Defined.


Lemma alice_only (u : user_row) :
  u ∈ users sample_db -> u_username u = Some "alice" -> u = alice.
Proof.
  simpl. intros Hu Hn.
  apply elem_of_cons in Hu as [->|Hu]; [done|].
  apply elem_of_cons in Hu as [->|Hu]; [discriminate Hn|].
  by apply elem_of_nil in Hu.
Qed.



Lemma login_failures_alike_witness :
  exists st1' st2',
    post_login (login_form "nobody" "secret") (state_of sample_db None [])
      = (Ok tt, st1')
    /\ post_login (login_form "alice" "guess") (state_of sample_db None [])
         = (Ok tt, st2')
    /\ h_reply st1' = h_reply st2'
    /\ h_reply st1' = Some (sent invalid_message).
Proof.
  apply (login_failures_alike (login_form "nobody" "secret")
           (login_form "alice" "guess") (state_of sample_db None [])
           (state_of sample_db None []) "guess").
  - simpl. constructor.
  - simpl. constructor.
  - intros u n Hu [= <-]. by apply sample_users_fresh.
  - reflexivity.
  - exists alice, "alice". split; [simpl; apply list_elem_of_here|]. by split.
  - intros u n Hu [= <-] Hn. by rewrite (alice_only u Hu Hn).
Defined.

Lemma rejection_handling_witness :
  (o_result (serve stormy (post None PostSignup (signup_form "bob" "pw" None))
               empty_world).2 = Ok tt
   /\ o_reply (serve stormy (post None PostSignup (signup_form "bob" "pw" None))
                 empty_world).2 = Some (sent failure_message)
   /\ Logged (QueryRejected (SelectUser (Some "bob")))
      ∈ o_trace (serve stormy (post None PostSignup (signup_form "bob" "pw" None))
                   empty_world).2)
  /\ (o_result (serve stormy (post None PostLogin (login_form "bob" "pw"))
                  empty_world).2
      = Throw (QueryRejected (SelectUser (Some "bob")))
      /\ o_reply (serve stormy (post None PostLogin (login_form "bob" "pw"))
                    empty_world).2 = None).
Proof.
  split.
  - apply (proj1 (rejection_handling stormy
                    (post None PostSignup (signup_form "bob" "pw" None))
                    empty_world (SelectUser (Some "bob"))
                    ltac:(vm_compute; apply list_elem_of_further,
                            list_elem_of_here))).
    reflexivity.
  - apply (proj2 (rejection_handling stormy
                    (post None PostLogin (login_form "bob" "pw"))
                    empty_world (SelectUser (Some "bob"))
                    ltac:(vm_compute; apply list_elem_of_further,
                            list_elem_of_here))).
    discriminate.
Defined.

Lemma logout_ends_session_witness :
  let rq := post (Some "s1") GetLogout empty_form in
  let w' := (serve calm rq logged_in_world).1 in
  let o := (serve calm rq logged_in_world).2 in
  o_result o = Ok tt
  /\ o_trace o = [Destroyed (o_sid o); Replied (redirected "/")]
  /\ w_store w' !! o_sid o = None
  /\ forall reqs en2 rq2 (next : H unit),
       Forall (fun p => env_sid p.1 <> o_sid o) reqs ->
       cookie rq2 = Some (o_sid o) ->
       let st2 := enter en2 rq2 (run reqs w') in
       current_user st2 = None
       /\ requireLogin next st2 = (Ok tt, finish (redirected "/login") st2).
Proof.
  intros rq.
  apply (logout_ends_session calm rq logged_in_world). reflexivity.
Defined.

Lemma signup_role_from_request_witness :
  (let rq := post None PostSignup (signup_form "bob" "pw" (Some "admin")) in
   users (w_db (serve calm rq empty_world).1) = users (w_db empty_world)
   \/ exists row,
        users (w_db (serve calm rq empty_world).1) =
          (users (w_db empty_world) ++ [row])%list
        /\ u_role row = or_else (Some "admin") "user")
  /\ Forall role_valid
       (users (w_db (run [(calm, post None PostSignup
                                    (signup_form "bob" "pw" (Some "admin")))]
                       empty_world))).
Proof.
  destruct signup_role_from_request as [Hrow Hrun]. split.
  - apply (Hrow calm (post None PostSignup (signup_form "bob" "pw" (Some "admin")))
             empty_world).
    reflexivity.
  - apply (Hrun [(calm, post None PostSignup
                          (signup_form "bob" "pw" (Some "admin")))]
             empty_world).
    + constructor; [|constructor]. intros _. simpl. unfold plain_role. auto.
    + simpl. constructor.
Defined.

(** C2 (as stated) fails: a signup whose body gives the role
    "superadmin" is answered with the redirect and leaves a user row
    with that role. *)
Lemma signup_role_unchecked :
  ~ Forall role_valid
      (users (w_db (run [(calm, post None PostSignup
                                   (signup_form "mallory" "pw"
                                      (Some "superadmin")))]
                      empty_world))).
Proof.
  simpl. intros Hall. apply Forall_cons in Hall as [[Hrole|Hrole] _];
    discriminate Hrole.
Qed.

(** * Beyond the claims: the remaining routes and the session middleware *)

(** ** The tables under one request *)

Section TableEffects.
Context `{CredentialService} `{SqlInput}.

Lemma handler_db_effect rq st : db_effect rq st (h_db (handler rq st).2).
Proof.
  destruct rq as [c t b]. simpl.
  destruct t; run_handler;
    repeat match goal with
      | Hrun : run_query _ _ = Some _ |- _ =>
          simpl in Hrun; repeat case_match; simplify_eq
      end;
    simpl in *; try apply db_unchanged.
  all: unfold is_admin in *;
    repeat match goal with
      | Hb : bool_decide _ = true |- _ => apply bool_decide_eq_true in Hb
      end.
  - by eapply db_signup.
  - by eapply db_create.
  - by eapply db_book.
  - by eapply db_admin_add.
  - by eapply db_admin_delete.
Qed.

End TableEffects.

Lemma fresh_append {A} (f : A -> Z) (l : list A) (x : A) (s : Z) :
  Forall (fun a => f a < s) l -> NoDup (map f l) -> f x = s ->
  Forall (fun a => f a < s + 1) (l ++ [x]) /\ NoDup (map f (l ++ [x])).
Proof.
  intros Hlt Hnd Hx. split.
  - apply Forall_app. split.
    + eapply Forall_impl; [exact Hlt|]. simpl. intros a Ha. lia.
    + constructor; [lia|constructor].
  - rewrite map_app. simpl. apply NoDup_app. split; [done|].
    split; [|apply NoDup_singleton].
    intros k Hk ->%list_elem_of_singleton.
    apply list_elem_of_In, in_map_iff in Hk as (a & Ha & Hin).
    apply list_elem_of_In in Hin.
    rewrite Forall_forall in Hlt. specialize (Hlt a Hin). lia.
Qed.

Lemma fresh_filter {A} (f : A -> Z) (p : A -> bool) (l : list A) (s : Z) :
  Forall (fun a => f a < s) l -> NoDup (map f l) ->
  Forall (fun a => f a < s) (List.filter p l)
  /\ NoDup (map f (List.filter p l)).
Proof.
  induction l as [|x l IH]; simpl; intros Hlt Hnd; [done|].
  apply Forall_cons in Hlt as [Hx Hlt].
  apply NoDup_cons in Hnd as [Hnot Hnd].
  destruct (IH Hlt Hnd) as [IHlt IHnd].
  destruct (p x); [|done]. simpl. split; [by constructor|].
  apply NoDup_cons. split; [|done].
  intros Hin. apply Hnot.
  apply list_elem_of_In, in_map_iff in Hin as (a & Ha & Hin).
  apply List.filter_In in Hin as [Hin _].
  apply list_elem_of_In, in_map_iff. by exists a.
Qed.

Section TableClaims.
Context `{CredentialService} `{SqlInput}.

Lemma db_effect_ids rq st d' :
  db_effect rq st d' -> ids_fresh (h_db st) -> ids_fresh d'.
Proof.
  intros Heff ((Hu & Hun) & (He & Hen) & (Hb & Hbn)).
  destruct Heff; [done|..]; unfold ids_fresh; simpl.
  - split; [|done]. by apply fresh_append.
  - split; [done|]. split; [|done]. by apply fresh_append.
  - split; [done|]. split; [|done]. by apply fresh_append.
  - split; [done|]. split; [done|]. by apply fresh_append.
  - split; [done|]. split; [|done]. by apply fresh_filter.
Qed.

Lemma serve_db_effect en rq w :
  db_effect rq (enter en rq w) (w_db (serve en rq w).1).
Proof. rewrite serve_handler. simpl. apply handler_db_effect. Qed.

(** X1. Without a session user, each of the six routes behind
    [requireLogin] answers with the redirect to /login and does nothing
    else: no query is issued and the route's own code never runs. *)
Theorem guard_redirects (rq : request) (st : hstate) :
  guarded (target rq) = true ->
  current_user st = None ->
  handler rq st = (Ok tt, finish (redirected "/login") st).
Proof.
  intros Hg Hu. destruct rq as [c t b]. simpl in *.
  destruct t; try discriminate Hg; unfold handler; simpl;
    unfold get_create_event, post_create_event, post_book, get_admin,
      post_admin_add, post_admin_delete, requireLogin, bind, session_user;
    by rewrite Hu.
Qed.

(** X2. With a session user whose role is not "admin", each of the three
    admin routes (listing, adding, deleting) answers "Access denied"
    and does nothing else: no event is added or deleted. *)
Theorem admin_routes_deny (rq : request) (st : hstate) (u : user_row) :
  admin_route (target rq) = true ->
  current_user st = Some u ->
  u_role u <> "admin" ->
  handler rq st = (Ok tt, finish (sent "Access denied") st).
Proof.
  intros Ha Hu Hrole. destruct rq as [c t b]. simpl in *.
  destruct t; try discriminate Ha; unfold handler; simpl;
    unfold get_admin, post_admin_add, post_admin_delete, requireLogin,
      admin_only, bind, session_user;
    rewrite !Hu; unfold is_admin; by rewrite bool_decide_false.
Qed.

(** X3. A request that carries no session user leaves all three tables as
    they are, unless it is a signup. *)
Theorem anonymous_read_only (en : env) (rq : request) (w : world) :
  current_user (enter en rq w) = None ->
  target rq <> PostSignup ->
  w_db (serve en rq w).1 = w_db w.
Proof.
  intros Hu Ht. pose proof (serve_db_effect en rq w) as Heff.
  rewrite <- (enter_db en rq w).
  destruct Heff; congruence.
Qed.

(** X4. A request whose session user is not an admin (or that has none)
    deletes no event: the events table afterwards is the one before,
    followed by at most rows owned by that user. *)
Theorem events_safe_from_non_admins (en : env) (rq : request) (w : world) :
  (forall u, current_user (enter en rq w) = Some u -> u_role u <> "admin") ->
  exists added,
    events (w_db (serve en rq w).1) = (events (w_db w) ++ added)%list
    /\ Forall (fun e => exists u, current_user (enter en rq w) = Some u
                         /\ e_user_id e = Some (u_id u)) added.
Proof.
  intros Hrole. pose proof (serve_db_effect en rq w) as Heff.
  rewrite <- (enter_db en rq w).
  destruct Heff as [|pw|u dt Ht Hu Hdt|u dt Ht Hu Hadm|id u n|id u n Ht Hu Hadm];
    simpl; try (exists []; by rewrite app_nil_r).
  - eexists. split; [reflexivity|]. constructor; [|constructor].
    by exists u.
  - by destruct (Hrole u Hu).
  - by destruct (Hrole u Hu).
Qed.

(** X5. User rows are never changed or removed: after any sequence of
    requests the users table starts with the rows it had before. *)
Theorem users_append_only (reqs : list (env * request)) (w : world) :
  users (w_db w) `prefix_of` users (w_db (run reqs w)).
Proof.
  revert w. induction reqs as [|[en rq] reqs IH]; intros w; [done|].
  simpl. etrans; [|apply IH].
  destruct (serve_users en rq w) as [->|(pw & _ & _ & ->)]; [done|].
  by apply prefix_app_r.
Qed.

(** X6. Generated identifiers stay distinct: if in each table the ids are
    pairwise different and below the table's sequence, the same holds
    after any sequence of requests. *)
Theorem generated_ids_distinct (reqs : list (env * request)) (w : world) :
  ids_fresh (w_db w) -> ids_fresh (w_db (run reqs w)).
Proof.
  revert w. induction reqs as [|[en rq] reqs IH]; intros w Hinv; [done|].
  simpl. apply IH.
  eapply db_effect_ids; [apply serve_db_effect|]. by rewrite enter_db.
Qed.

End TableClaims.

(** ** Events and bookings *)

Lemma filter_other_ids n l :
  List.filter (fun e => negb (e_id e =? n)) l
  = filter (fun e => e_id e <> n) l.
Proof.
  induction l as [|e l IH]; simpl; [done|].
  rewrite filter_cons, <- IH.
  destruct (Z.eqb_spec (e_id e) n) as [Heq|Hne]; simpl.
  - by rewrite decide_False by (intros Hn; by apply Hn).
  - by rewrite decide_True.
Qed.

Lemma with_events_same d : with_events d (events d) (seq_events d) = d.
Proof. by destruct d. Qed.

Section EventClaims.
Context `{CredentialService} `{SqlInput}.

Lemma post_admin_delete_admin st id n u :
  current_user st = Some u -> u_role u = "admin" ->
  quiet (h_faults st) -> int4_in id = Some n ->
  post_admin_delete id st =
    (Ok tt,
     finish (redirected "/admin")
       (set_db (with_events (h_db st)
                  (List.filter (fun e => negb (e_id e =? n)) (events (h_db st)))
                  (seq_events (h_db st)))
          (emit (Issued (DeleteEvent id))
             (set_faults (tail (h_faults st)) st)))).
Proof.
  intros Hu Hadm Hq Hid.
  unfold post_admin_delete, requireLogin, admin_only, bind, session_user.
  rewrite !Hu. unfold is_admin. rewrite bool_decide_true by done.
  erewrite db_query_resolves; [| done | simpl; rewrite Hid; reflexivity].
  done.
Qed.

(** X7. POST /admin/delete/:id by an admin, the statement not being
    rejected: the answer is a redirect to /admin and the events table
    loses exactly the rows with that id, the others keeping their
    order; users and bookings are untouched, so bookings of a deleted
    event stay behind. *)
Theorem delete_removes_event (st : hstate) (id : string) (n : Z) (u : user_row) :
  current_user st = Some u -> u_role u = "admin" ->
  quiet (h_faults st) -> int4_in id = Some n ->
  exists st',
    post_admin_delete id st = (Ok tt, st')
    /\ h_reply st' = Some (redirected "/admin")
    /\ events (h_db st') = filter (fun e => e_id e <> n) (events (h_db st))
    /\ Forall (fun e => e_id e <> n) (events (h_db st'))
    /\ users (h_db st') = users (h_db st)
    /\ bookings (h_db st') = bookings (h_db st).
Proof.
  intros Hu Hadm Hq Hid. eexists.
  split; [by eapply post_admin_delete_admin|]. simpl.
  rewrite filter_other_ids. repeat split.
  apply Forall_forall. intros e He. by apply list_elem_of_filter in He as [? _].
Qed.

Lemma post_admin_delete_unreadable st id u :
  current_user st = Some u -> u_role u = "admin" ->
  quiet (h_faults st) -> int4_in id = None ->
  post_admin_delete id st =
    (Throw (QueryRejected (DeleteEvent id)),
     emit (Rejected (DeleteEvent id))
       (emit (Issued (DeleteEvent id)) (set_faults (tail (h_faults st)) st))).
Proof.
  intros Hu Hadm Hq Hid.
  unfold post_admin_delete, requireLogin, admin_only, bind, session_user.
  rewrite !Hu. unfold is_admin. rewrite bool_decide_true by done.
  unfold db_query. simpl. rewrite Hid.
  destruct Hq as [|f fs Hf _]; [done|]. by rewrite Hf.
Qed.

(** X8. POST /admin/delete/:id by an admin for an id that no event
    has, the environment rejecting nothing: the database is exactly as
    before; when the id reads as an integer the handler does not fail
    and answers with the redirect to /admin, and when it does not the
    DELETE is rejected, the handler throws and sends no reply. *)
Theorem delete_missing_event (st : hstate) (id : string) (u : user_row) :
  current_user st = Some u -> u_role u = "admin" ->
  quiet (h_faults st) ->
  (forall n, int4_in id = Some n ->
             Forall (fun e => e_id e <> n) (events (h_db st))) ->
  h_db (post_admin_delete id st).2 = h_db st
  /\ (forall n, int4_in id = Some n ->
        (post_admin_delete id st).1 = Ok tt
        /\ h_reply (post_admin_delete id st).2 = Some (redirected "/admin"))
  /\ (int4_in id = None ->
        (post_admin_delete id st).1 = Throw (QueryRejected (DeleteEvent id))
        /\ h_reply (post_admin_delete id st).2 = h_reply st).
Proof.
  intros Hu Hadm Hq Hnone.
  destruct (int4_in id) as [n|] eqn:Hid.
  - rewrite (post_admin_delete_admin st id n u) by done. simpl.
    split; [|split; [by intros ? _|done]].
    rewrite filter_other_ids.
    assert (Hsame : filter (fun e => e_id e <> n) (events (h_db st))
                    = events (h_db st)).
    { specialize (Hnone n eq_refl).
      induction Hnone as [|e l He Hl IH]; [done|].
      by rewrite filter_cons_True, IH. }
    rewrite Hsame. apply with_events_same.
  - rewrite (post_admin_delete_unreadable st id u) by done. simpl.
    split; [done|]. split; [done|]. by intros _.
Qed.

(** X9. POST /create-event by a logged-in user, the date converting and
    the statement not being rejected: the answer is a redirect to /,
    one event is appended with the submitted title, date and location
    and the session user as owner, and that user's next GET / lists
    it. *)
Theorem create_event_listed (st : hstate) (b : form) (u : user_row)
    (dt : option Z) :
  current_user st = Some u -> quiet (h_faults st) ->
  convert date_in (f_date b) = Some dt ->
  exists st',
    post_create_event b st = (Ok tt, st')
    /\ h_reply st' = Some (redirected "/")
    /\ events (h_db st') =
         (events (h_db st) ++
            [event_row_of b dt (Some (u_id u)) (h_db st)])%list
    /\ forall st2,
         h_db st2 = h_db st' -> current_user st2 = Some u ->
         quiet (h_faults st2) ->
         exists evs st2',
           get_home st2 = (Ok tt, st2')
           /\ h_reply st2' = Some (rendered "index" (UserEvents (Some u) evs))
           /\ event_row_of b dt (Some (u_id u)) (h_db st) ∈ evs.
Proof.
  intros Hu Hq Hdt.
  unfold post_create_event, requireLogin, session_user_id, bind, session_user.
  rewrite !Hu. unfold ret.
  erewrite db_query_resolves; [| done | simpl; rewrite Hdt; reflexivity].
  simpl. eexists. split; [reflexivity|]. split; [done|]. split; [done|].
  intros st2 Hdb Hu2 Hq2.
  destruct (get_home_logged_in st2 u Hu2 Hq2)
    as (evs & st2' & Hrun & Hreply & _ & Hall & Hown).
  exists evs, st2'. split; [done|]. split; [done|].
  rewrite Hdb in Hall, Hown. simpl in Hall, Hown.
  destruct (decide (u_role u = "admin")) as [Hadm|Hadm].
  - rewrite (Hall Hadm). apply elem_of_app. right. apply list_elem_of_here.
  - rewrite (Hown Hadm). apply list_elem_of_filter. split; [done|].
    apply elem_of_app. right. apply list_elem_of_here.
Qed.

(** X10. POST /book/:id by a logged-in user, the id converting and the
    statement not being rejected: one booking of that event id by the
    session user is appended and the confirmation view is rendered
    with the id as submitted.  The handler looks at neither the events
    table nor the earlier bookings: nothing requires the event to
    exist or the booking to be the first. *)
Theorem book_records (st : hstate) (id : string) (n : Z) (u : user_row) :
  current_user st = Some u -> quiet (h_faults st) -> int4_in id = Some n ->
  exists st',
    post_book id st = (Ok tt, st')
    /\ h_reply st' = Some (rendered "confirmation" (UserEventId (Some u) id))
    /\ bookings (h_db st') =
         (bookings (h_db st) ++
            [{| b_id := seq_bookings (h_db st); b_user_id := u_id u;
                b_event_id := n |}])%list
    /\ events (h_db st') = events (h_db st)
    /\ users (h_db st') = users (h_db st)
    /\ h_trace st' =
         (h_trace st ++
            [Issued (InsertBooking (u_id u) id);
             Replied (rendered "confirmation" (UserEventId (Some u) id))])%list.
Proof.
  intros Hu Hq Hid.
  unfold post_book, requireLogin, session_user_id, bind, session_user.
  rewrite !Hu. unfold ret.
  erewrite db_query_resolves; [| done | simpl; rewrite Hid; reflexivity].
  simpl. eexists. split; [reflexivity|].
  unfold current_user in *. simpl. rewrite Hu, <- app_assoc. by repeat split.
Qed.

(** X11. POST /signup, once the body's fields are read: whatever
    they are and whichever queries are rejected, the [try]/[catch]
    returns after exactly one of three answers, and a user row is
    appended only together with the redirect to /login; with "already
    taken" or the failure message every table has the rows it had
    before. *)
Theorem signup_always_answers (b : form) (st : hstate) :
  exists st',
    post_signup b st = (Ok tt, st')
    /\ ((h_reply st' = Some (redirected "/login")
         /\ exists pw,
              f_password b = Some pw
              /\ users (h_db st') =
                   (users (h_db st) ++ [signup_row b pw st])%list
              /\ events (h_db st') = events (h_db st)
              /\ bookings (h_db st') = bookings (h_db st))
        \/ (h_reply st' = Some (sent taken_message)
            /\ same_rows (h_db st) (h_db st'))
        \/ (h_reply st' = Some (sent failure_message)
            /\ same_rows (h_db st) (h_db st'))).
Proof.
  unfold same_rows.
  run_handler;
    repeat match goal with
      | Hrun : run_query _ _ = Some _ |- _ => simpl in Hrun; simplify_eq
      end;
    (eexists; split; [reflexivity|]); simpl; eauto 10.
Qed.

End EventClaims.

(** ** Sessions across requests *)

Section SessionFlow.
Context `{CredentialService} `{SqlInput}.

Lemma enter_known_cookie en rq w sid s :
  cookie rq = Some sid -> w_store w !! sid = Some s ->
  h_sid (enter en rq w) = sid /\ h_session (enter en rq w) = Some s.
Proof. intros Hc Hs. unfold enter, load_session. by rewrite Hc, Hs. Qed.

Lemma handler_session rq st :
  target rq <> PostLogin -> target rq <> GetLogout ->
  h_session (handler rq st).2 = h_session st
  /\ h_store (handler rq st).2 = h_store st
  /\ h_sid (handler rq st).2 = h_sid st.
Proof.
  intros Hlogin Hlogout. destruct rq as [c t b]. simpl in *.
  destruct t; try congruence; run_handler; by repeat split.
Qed.

Lemma get_admin_renders st u :
  current_user st = Some u -> u_role u = "admin" -> quiet (h_faults st) ->
  exists evs st',
    get_admin st = (Ok tt, st')
    /\ h_reply st' = Some (rendered "admin" (UserEvents (Some u) evs))
    /\ evs ≡ₚ events (h_db st).
Proof.
  intros Hu Hrole Hq.
  unfold get_admin, requireLogin, admin_only, bind, session_user.
  rewrite !Hu. unfold is_admin. rewrite bool_decide_true by done.
  erewrite db_query_resolves by (done || reflexivity). simpl.
  eexists _, _. split; [reflexivity|]. unfold current_user in *. simpl.
  rewrite Hu. split; [done|]. apply order_by_date_perm.
Qed.

Lemma serve_login_success en rq w n pw u :
  target rq = PostLogin ->
  f_username (body rq) = Some n -> f_password (body rq) = Some pw ->
  quiet (env_faults en) ->
  unique_usernames (users (w_db w)) ->
  u ∈ users (w_db w) -> u_username u = Some n ->
  verify pw (u_password u) = true ->
  o_reply (serve en rq w).2 = Some (redirected "/")
  /\ w_store (serve en rq w).1 !! o_sid (serve en rq w).2
     = Some {| sess_user := Some u |}
  /\ w_db (serve en rq w).1 = w_db w.
Proof.
  intros Ht Hn Hpw Hq Huniq Hu Hun Hver.
  rewrite serve_handler. unfold handler. rewrite Ht. simpl.
  erewrite post_login_found; [| by rewrite enter_faults | | exact Hpw].
  2:{ rewrite Hn, enter_db. by apply lookup_unique. }
  rewrite Hver. simpl. split; [done|].
  split; [apply lookup_insert_eq|apply enter_db].
Qed.

Lemma signup_then_login `{!CredentialLaws} en1 en2 rq1 rq2 w n pw :
  target rq1 = PostSignup -> target rq2 = PostLogin ->
  f_username (body rq1) = Some n -> f_username (body rq2) = Some n ->
  f_password (body rq1) = Some pw -> f_password (body rq2) = Some pw ->
  quiet (env_faults en1) -> quiet (env_faults en2) ->
  unique_usernames (users (w_db w)) ->
  (forall u, u ∈ users (w_db w) -> u_username u <> Some n) ->
  let w1 := (serve en1 rq1 w).1 in
  exists row,
    o_reply (serve en2 rq2 w1).2 = Some (redirected "/")
    /\ w_store (serve en2 rq2 w1).1 !! o_sid (serve en2 rq2 w1).2
       = Some {| sess_user := Some row |}
    /\ u_username row = Some n
    /\ u_role row = or_else (f_role (body rq1)) "user"
    /\ events (w_db (serve en2 rq2 w1).1) = events (w_db w).
Proof.
  intros Ht1 Ht2 Hn1 Hn2 Hpw1 Hpw2 Hq1 Hq2 Huniq Hfresh w1.
  assert (Hw1 : users (w_db w1) =
                (users (w_db w) ++
                   [signup_row (body rq1) pw (enter en1 rq1 w)])%list
                /\ events (w_db w1) = events (w_db w)).
  { subst w1. rewrite serve_handler. unfold handler. rewrite Ht1. simpl.
    destruct (post_signup_fresh (body rq1) (enter en1 rq1 w) pw)
      as (st1 & Hrun1 & _ & Husers1 & Hevents1 & _).
    { by rewrite enter_faults. }
    { apply lookup_unknown. intros u k Hu. rewrite Hn1. intros [= <-].
      rewrite enter_db in Hu. by apply Hfresh. }
    { done. }
    rewrite Hrun1. simpl. by rewrite Husers1, Hevents1, enter_db. }
  destruct Hw1 as [Husers Hevents].
  exists (signup_row (body rq1) pw (enter en1 rq1 w)).
  destruct (serve_login_success en2 rq2 w1 n pw
              (signup_row (body rq1) pw (enter en1 rq1 w)))
    as (Hreply & Hstore & Hdb); try done.
  - subst w1. by apply serve_unique_usernames.
  - rewrite Husers. apply elem_of_app. right. apply list_elem_of_here.
  - simpl. apply verify_hash.
  - split; [done|]. split; [done|]. split; [done|]. split; [done|].
    by rewrite Hdb.
Qed.

Lemma serve_with_session en rq w sid s :
  cookie rq = Some sid -> w_store w !! sid = Some s ->
  current_user (enter en rq w) = sess_user s.
Proof.
  intros Hc Hs. unfold current_user.
  by destruct (enter_known_cookie en rq w sid s Hc Hs) as [_ ->].
Qed.

(** X12. Signup, then login with the same credentials, then GET / on the
    session the login answered on (no query being rejected): the login
    is answered with the redirect to /, the store holds the new user
    row for that session, and the home view is rendered for that
    user. *)
Theorem signup_login_round_trip `{!CredentialLaws}
    (en1 en2 : env) (rq1 rq2 : request) (w : world) (n pw : string) :
  target rq1 = PostSignup -> target rq2 = PostLogin ->
  f_username (body rq1) = Some n -> f_username (body rq2) = Some n ->
  f_password (body rq1) = Some pw -> f_password (body rq2) = Some pw ->
  quiet (env_faults en1) -> quiet (env_faults en2) ->
  unique_usernames (users (w_db w)) ->
  (forall u, u ∈ users (w_db w) -> u_username u <> Some n) ->
  let w1 := (serve en1 rq1 w).1 in
  let w2 := (serve en2 rq2 w1).1 in
  let o2 := (serve en2 rq2 w1).2 in
  exists row,
    o_reply o2 = Some (redirected "/")
    /\ w_store w2 !! o_sid o2 = Some {| sess_user := Some row |}
    /\ u_username row = Some n
    /\ forall en3 rq3,
         target rq3 = GetHome -> cookie rq3 = Some (o_sid o2) ->
         quiet (env_faults en3) ->
         exists evs,
           o_reply (serve en3 rq3 w2).2
           = Some (rendered "index" (UserEvents (Some row) evs)).
Proof.
  intros Ht1 Ht2 Hn1 Hn2 Hpw1 Hpw2 Hq1 Hq2 Huniq Hfresh w1 w2 o2.
  destruct (signup_then_login en1 en2 rq1 rq2 w n pw)
    as (row & Hreply & Hstore & Hname & _); try done.
  exists row. split; [done|]. split; [done|]. split; [done|].
  intros en3 rq3 Ht3 Hc3 Hq3.
  rewrite serve_handler. unfold handler. rewrite Ht3. simpl.
  destruct (get_home_logged_in (enter en3 rq3 w2) row)
    as (evs & st' & Hrun & Hrep & _).
  { by rewrite (serve_with_session en3 rq3 w2 _ _ Hc3 Hstore). }
  { by rewrite enter_faults. }
  exists evs. by rewrite Hrun.
Qed.

(** X13. Anyone can make an admin: a signup that submits the role "admin"
    under a fresh username, followed by a login with the same
    credentials, yields a session for which GET /admin renders the
    admin view with all events. *)
Theorem signup_grants_admin `{!CredentialLaws}
    (en1 en2 : env) (rq1 rq2 : request) (w : world) (n pw : string) :
  target rq1 = PostSignup -> target rq2 = PostLogin ->
  f_role (body rq1) = Some "admin" ->
  f_username (body rq1) = Some n -> f_username (body rq2) = Some n ->
  f_password (body rq1) = Some pw -> f_password (body rq2) = Some pw ->
  quiet (env_faults en1) -> quiet (env_faults en2) ->
  unique_usernames (users (w_db w)) ->
  (forall u, u ∈ users (w_db w) -> u_username u <> Some n) ->
  let w1 := (serve en1 rq1 w).1 in
  let w2 := (serve en2 rq2 w1).1 in
  let o2 := (serve en2 rq2 w1).2 in
  forall en3 rq3,
    target rq3 = GetAdmin -> cookie rq3 = Some (o_sid o2) ->
    quiet (env_faults en3) ->
    exists row evs,
      o_reply (serve en3 rq3 w2).2
      = Some (rendered "admin" (UserEvents (Some row) evs))
      /\ u_username row = Some n
      /\ evs ≡ₚ events (w_db w).
Proof.
  intros Ht1 Ht2 Hrole Hn1 Hn2 Hpw1 Hpw2 Hq1 Hq2 Huniq Hfresh w1 w2 o2
    en3 rq3 Ht3 Hc3 Hq3.
  destruct (signup_then_login en1 en2 rq1 rq2 w n pw)
    as (row & Hreply & Hstore & Hname & Hrow & Hevents); try done.
  rewrite Hrole in Hrow. simpl in Hrow.
  rewrite serve_handler. unfold handler. rewrite Ht3. simpl.
  destruct (get_admin_renders (enter en3 rq3 w2) row)
    as (evs & st' & Hrun & Hrep & Hperm).
  { by rewrite (serve_with_session en3 rq3 w2 _ _ Hc3 Hstore). }
  { done. }
  { by rewrite enter_faults. }
  exists row, evs. rewrite Hrun. split; [done|]. split; [done|].
  rewrite Hperm, enter_db. subst w2 w1. by rewrite Hevents.
Qed.

(** X14. Serving a request touches no session but its own: every other
    identifier maps to the same session (or to none) afterwards. *)
Theorem other_sessions_untouched (en : env) (rq : request) (w : world)
    (k : string) :
  k <> o_sid (serve en rq w).2 ->
  w_store (serve en rq w).1 !! k = w_store w !! k.
Proof.
  rewrite serve_handler. simpl. intros Hk.
  destruct (handler_session_store rq (enter en rq w)) as [Hsid Hstore].
  rewrite Hsid in Hk. rewrite enter_store in Hstore.
  assert (Hsame : h_store (handler rq (enter en rq w)).2 !! k = w_store w !! k).
  { destruct Hstore as [->| ->]; [done|]. by rewrite lookup_delete_ne. }
  destruct (h_reply _); [|done].
  destruct (h_session _); [|done].
  rewrite lookup_insert_ne; [done|]. by rewrite Hsid.
Qed.

(** X15. A stored session keeps its user until a login or a logout on it:
    any other request presenting its identifier, signup included,
    leaves the store's entry as it was, so the role the access checks
    see is the one captured at login. *)
Theorem session_kept (en : env) (rq : request) (w : world) (sid : string)
    (s : session) :
  cookie rq = Some sid -> w_store w !! sid = Some s ->
  target rq <> PostLogin -> target rq <> GetLogout ->
  w_store (serve en rq w).1 !! sid = Some s.
Proof.
  intros Hc Hs Hlogin Hlogout. rewrite serve_handler. simpl.
  destruct (handler_session rq (enter en rq w) Hlogin Hlogout)
    as (Hsess & Hstore & Hsid).
  destruct (enter_known_cookie en rq w sid s Hc Hs) as [Hesid Hesess].
  rewrite Hsess, Hstore, Hsid, Hesid, Hesess, enter_store.
  destruct (h_reply _); [apply lookup_insert_eq|done].
Qed.

End SessionFlow.

(** ** Reads and rejected statements *)

Section ReadOnly.
Context `{CredentialService} `{SqlInput}.

Lemma handler_rejection_rows rq st q :
  h_trace st = [] ->
  Rejected q ∈ h_trace (handler rq st).2 ->
  same_rows (h_db st) (h_db (handler rq st).2).
Proof.
  intros Ht. unfold same_rows. destruct rq as [c t b]. simpl.
  destruct t; run_handler; rewrite ?Ht; simpl; intros Hin;
    trace_members Hin; simplify_eq;
    repeat match goal with
      | Hrun : run_query _ _ = Some _ |- _ => simpl in Hrun; simplify_eq
      end;
    done.
Qed.

(** X16. The routes that only read (GET /, the forms, POST /login, GET
    /logout, GET /admin) leave all three tables as they are, whoever
    asks and whatever is rejected. *)
Theorem reads_never_write (en : env) (rq : request) (w : world) :
  writes (target rq) = false ->
  w_db (serve en rq w).1 = w_db w.
Proof.
  intros Hw. pose proof (serve_db_effect en rq w) as Heff.
  rewrite <- (enter_db en rq w).
  destruct Heff as [|pw Ht|u dt Ht|u dt Ht|id u n Ht|id u n Ht];
    [done|rewrite Ht in Hw; discriminate Hw..].
Qed.

(** X17. No request leaves a partial write behind: whenever one of
    its queries is rejected, every table has after the request the
    rows it had before it. *)
Theorem rejection_leaves_database (en : env) (rq : request) (w : world)
    (q : query) :
  Rejected q ∈ o_trace (serve en rq w).2 ->
  same_rows (w_db w) (w_db (serve en rq w).1).
Proof.
  rewrite serve_handler. simpl. intros Hin.
  rewrite <- (enter_db en rq w).
  eapply handler_rejection_rows; [apply enter_trace|exact Hin].
Qed.

End ReadOnly.

(** ** The further properties on concrete requests *)

Lemma guard_redirects_witness :
  handler (post None (PostBook "1") empty_form) (state_of sample_db None [])
  = (Ok tt, finish (redirected "/login") (state_of sample_db None [])).
Proof.
  apply (guard_redirects (post None (PostBook "1") empty_form)
           (state_of sample_db None [])).
  - reflexivity.
  - reflexivity.
Defined.

Lemma admin_routes_deny_witness :
  handler (post None (PostAdminDelete "1") empty_form)
    (state_of sample_db (Some alice) [])
  = (Ok tt, finish (sent "Access denied") (state_of sample_db (Some alice) [])).
Proof.
  apply (admin_routes_deny (post None (PostAdminDelete "1") empty_form)
           (state_of sample_db (Some alice) []) alice).
  - reflexivity.
  - reflexivity.
  - vm_compute. discriminate.
Defined.

Lemma anonymous_read_only_witness :
  w_db (serve calm (post None PostCreateEvent (event_form "fete" "40" "park"))
          logged_in_world).1
  = w_db logged_in_world.
Proof.
  apply (anonymous_read_only calm
           (post None PostCreateEvent (event_form "fete" "40" "park"))
           logged_in_world).
  - reflexivity.
  - discriminate.
Defined.

Lemma events_safe_from_non_admins_witness :
  let rq := post (Some "s1") PostCreateEvent (event_form "fete" "40" "park") in
  exists added,
    events (w_db (serve calm rq logged_in_world).1)
    = (events (w_db logged_in_world) ++ added)%list
    /\ Forall (fun e => exists u,
                 current_user (enter calm rq logged_in_world) = Some u
                 /\ e_user_id e = Some (u_id u)) added.
Proof.
  intros rq.
  apply (events_safe_from_non_admins calm rq logged_in_world).
  intros u Hu. vm_compute in Hu. injection Hu as <-. vm_compute. discriminate.
Defined.

Lemma generated_ids_distinct_witness :
  ids_fresh
    (w_db (run [(calm, post None PostSignup (signup_form "bob" "pw" None));
                (calm, post None PostSignup (signup_form "eve" "pw" None))]
             empty_world)).
Proof.
  apply (generated_ids_distinct
           [(calm, post None PostSignup (signup_form "bob" "pw" None));
            (calm, post None PostSignup (signup_form "eve" "pw" None))]
           empty_world).
  simpl. unfold ids_fresh. simpl. repeat split; constructor.
Defined.

Lemma delete_removes_event_witness :
  exists st',
    post_admin_delete "2" (state_of sample_db (Some root) []) = (Ok tt, st')
    /\ h_reply st' = Some (redirected "/admin")
    /\ events (h_db st') = filter (fun e => e_id e <> 2) [party; fair; gala]
    /\ Forall (fun e => e_id e <> 2) (events (h_db st'))
    /\ users (h_db st') = [alice; root]
    /\ bookings (h_db st') = [].
Proof.
  apply (delete_removes_event (state_of sample_db (Some root) []) "2" 2 root).
  - reflexivity.
  - reflexivity.
  - simpl. constructor.
  - reflexivity.
Defined.

Lemma delete_missing_event_witness :
  (h_db (post_admin_delete "9" (state_of sample_db (Some root) [])).2
   = sample_db
   /\ (post_admin_delete "9" (state_of sample_db (Some root) [])).1 = Ok tt
   /\ h_reply (post_admin_delete "9" (state_of sample_db (Some root) [])).2
      = Some (redirected "/admin"))
  /\ (h_db (post_admin_delete "nine" (state_of sample_db (Some root) [])).2
      = sample_db
      /\ (post_admin_delete "nine" (state_of sample_db (Some root) [])).1
         = Throw (QueryRejected (DeleteEvent "nine"))
      /\ h_reply (post_admin_delete "nine" (state_of sample_db (Some root) [])).2
         = None).
Proof.
  split.
  - destruct (delete_missing_event (state_of sample_db (Some root) []) "9" root)
      as (Hdb & Hok & _).
    + reflexivity.
    + reflexivity.
    + simpl. constructor.
    + intros n [= <-]. simpl. repeat constructor; vm_compute; discriminate.
    + split; [exact Hdb|]. apply (Hok 9). reflexivity.
  - destruct (delete_missing_event (state_of sample_db (Some root) []) "nine"
                root) as (Hdb & _ & Hthrow).
    + reflexivity.
    + reflexivity.
    + simpl. constructor.
    + intros n Hn. vm_compute in Hn. discriminate Hn.
    + split; [exact Hdb|]. apply Hthrow. reflexivity.
Defined.

Lemma create_event_listed_witness :
  let b := event_form "fete" "40" "park" in
  let st := state_of sample_db (Some alice) [] in
  exists st',
    post_create_event b st = (Ok tt, st')
    /\ h_reply st' = Some (redirected "/")
    /\ events (h_db st') =
         (events sample_db ++
            [event_row_of b (Some 40) (Some 1) sample_db])%list
    /\ forall st2,
         h_db st2 = h_db st' -> current_user st2 = Some alice ->
         quiet (h_faults st2) ->
         exists evs st2',
           get_home st2 = (Ok tt, st2')
           /\ h_reply st2' = Some (rendered "index" (UserEvents (Some alice) evs))
           /\ event_row_of b (Some 40) (Some 1) sample_db ∈ evs.
Proof.
  intros b st.
  apply (create_event_listed st b alice (Some 40)).
  - reflexivity.
  - simpl. constructor.
  - reflexivity.
Defined.

Lemma book_records_witness :
  exists st',
    post_book "77" (state_of sample_db (Some alice) []) = (Ok tt, st')
    /\ h_reply st'
       = Some (rendered "confirmation" (UserEventId (Some alice) "77"))
    /\ bookings (h_db st') =
         ([] ++ [{| b_id := 1; b_user_id := 1; b_event_id := 77 |}])%list
    /\ events (h_db st') = [party; fair; gala]
    /\ users (h_db st') = [alice; root]
    /\ h_trace st' =
         ([] ++
            [Issued (InsertBooking 1 "77");
             Replied (rendered "confirmation"
                        (UserEventId (Some alice) "77"))])%list.
Proof.
  apply (book_records (state_of sample_db (Some alice) []) "77" 77 alice).
  - reflexivity.
  - simpl. constructor.
  - reflexivity.
Defined.

Lemma empty_users_fresh (n : string) (u : user_row) :
  u ∈ users (w_db empty_world) -> u_username u <> Some n.
Proof. simpl. intros Hu. by apply elem_of_nil in Hu. Qed.

Lemma signup_login_round_trip_witness :
  let rq1 := post None PostSignup (signup_form "bob" "pw" None) in
  let rq2 := post (Some "s1") PostLogin (login_form "bob" "pw") in
  let w1 := (serve calm rq1 empty_world).1 in
  let w2 := (serve calm rq2 w1).1 in
  let o2 := (serve calm rq2 w1).2 in
  exists row,
    o_reply o2 = Some (redirected "/")
    /\ w_store w2 !! o_sid o2 = Some {| sess_user := Some row |}
    /\ u_username row = Some "bob"
    /\ forall en3 rq3,
         target rq3 = GetHome -> cookie rq3 = Some (o_sid o2) ->
         quiet (env_faults en3) ->
         exists evs,
           o_reply (serve en3 rq3 w2).2
           = Some (rendered "index" (UserEvents (Some row) evs)).
Proof.
  intros rq1 rq2.
  apply (signup_login_round_trip calm calm rq1 rq2 empty_world "bob" "pw").
  - reflexivity.
  - reflexivity.
  - reflexivity.
  - reflexivity.
  - reflexivity.
  - reflexivity.
  - simpl. constructor.
  - simpl. constructor.
  - simpl. constructor.
  - apply empty_users_fresh.
Defined.

Lemma signup_grants_admin_witness :
  let rq1 := post None PostSignup (signup_form "eve" "pw" (Some "admin")) in
  let rq2 := post (Some "s1") PostLogin (login_form "eve" "pw") in
  let w1 := (serve calm rq1 empty_world).1 in
  let w2 := (serve calm rq2 w1).1 in
  exists row evs,
    o_reply (serve calm (post (Some "s1") GetAdmin empty_form) w2).2
    = Some (rendered "admin" (UserEvents (Some row) evs))
    /\ u_username row = Some "eve"
    /\ evs ≡ₚ events (w_db empty_world).
Proof.
  intros rq1 rq2.
  apply (signup_grants_admin calm calm rq1 rq2 empty_world "eve" "pw"
           eq_refl eq_refl eq_refl eq_refl eq_refl eq_refl eq_refl
           ltac:(simpl; constructor) ltac:(simpl; constructor)
           ltac:(simpl; constructor) (empty_users_fresh "eve")
           calm (post (Some "s1") GetAdmin empty_form)).
  - reflexivity.
  - vm_compute. reflexivity.
  - simpl. constructor.
Defined.

Lemma other_sessions_untouched_witness :
  w_store (serve stormy (post None GetLogout empty_form) logged_in_world).1
    !! "s1"
  = w_store logged_in_world !! "s1".
Proof.
  apply (other_sessions_untouched stormy (post None GetLogout empty_form)
           logged_in_world "s1").
  vm_compute. discriminate.
Defined.

Lemma session_kept_witness :
  w_store (serve calm (post (Some "s1") PostSignup
                         (signup_form "eve" "pw" (Some "admin")))
             logged_in_world).1 !! "s1"
  = Some {| sess_user := Some bob |}.
Proof.
  apply (session_kept calm
           (post (Some "s1") PostSignup (signup_form "eve" "pw" (Some "admin")))
           logged_in_world "s1" {| sess_user := Some bob |}).
  - reflexivity.
  - vm_compute. reflexivity.
  - discriminate.
  - discriminate.
Defined.

Lemma reads_never_write_witness :
  w_db (serve calm (post (Some "s1") GetLogout empty_form) logged_in_world).1
  = w_db logged_in_world.
Proof.
  apply (reads_never_write calm (post (Some "s1") GetLogout empty_form)
           logged_in_world).
  reflexivity.
Defined.

Lemma rejection_leaves_database_witness :
  same_rows (w_db logged_in_world)
    (w_db (serve {| env_faults := [false; true]; env_salt := "salt";
                    env_sid := "s3" |}
             (post None PostSignup (signup_form "eve" "pw" None))
             logged_in_world).1).
Proof.
  apply (rejection_leaves_database
           {| env_faults := [false; true]; env_salt := "salt"; env_sid := "s3" |}
           (post None PostSignup (signup_form "eve" "pw" None))
           logged_in_world
           (InsertUser (Some "eve") "$pw" "user")).
  vm_compute. apply list_elem_of_further, list_elem_of_further,
    list_elem_of_here.
Defined.

Lemma run_unique_usernames_witness :
  unique_usernames
    (users (w_db (run [(calm, post None PostSignup (signup_form "bob" "pw" None));
                       (calm, post None PostSignup
                                (signup_form "bob" "other" (Some "admin")));
                       (calm, post None PostSignup (signup_form "eve" "pw" None))]
                    empty_world))).
Proof.
  apply (run_unique_usernames
           [(calm, post None PostSignup (signup_form "bob" "pw" None));
            (calm, post None PostSignup
                     (signup_form "bob" "other" (Some "admin")));
            (calm, post None PostSignup (signup_form "eve" "pw" None))]
           empty_world).
  simpl. constructor.
Defined.
